(** * Job synchronisation in the project front end

    A shallow embedding of the client-side job synchronisation code:

    - [ProjectDetail] (pages/ProjectDetail): the WebSocket message handler
      and its [status_update] merge, the keep-alive ping, [loadProject],
      [handleRunProject] and the [canRun] gate;
    - [ProjectProvider] (context/ProjectContext): [fetchProjects],
      [getProject], [runProject];
    - [Dashboard] (pages/Dashboard): the ten second refresh interval.

    JavaScript numbers are IEEE 754 binary64 values, so they are embedded as
    primitive floats; decoded frames are values of [JsValue]. *)

From Stdlib Require Import Floats String Ascii List Bool Arith ZArith Lia.
Import ListNotations.
Open Scope string_scope.
Set Warnings "-register-all".

(** ** JavaScript values and the operators the handlers use *)

Module Js.

(** Values [JSON.parse] can return, plus [undefined], which a property read
    yields for a missing member. An object is its list of own properties. *)
Inductive JsValue : Type :=
| JUndefined
| JNull
| JBool (b : bool)
| JNum (f : float)
| JStr (s : string)
| JArr (items : list JsValue)
| JObj (fields : list (string * JsValue)).

Inductive JsError : Type :=
| SyntaxError
| TypeError.

(** Outcome of evaluating an expression: a value or a thrown exception. *)
Inductive Completion (A : Type) : Type :=
| Normal (a : A)
| Throw (e : JsError).
Arguments Normal {A} a.
Arguments Throw {A} e.

Definition cbind {A B} (c : Completion A) (k : A -> Completion B) : Completion B :=
  match c with
  | Normal a => k a
  | Throw e => Throw e
  end.

(** ToBoolean: [undefined], [null], [false], [+0], [-0], [NaN] and the empty
    string are falsy, everything else (arrays and objects included) is truthy. *)
Definition truthy (v : JsValue) : bool :=
  match v with
  | JUndefined => false
  | JNull => false
  | JBool b => b
  | JNum f => negb (PrimFloat.eqb f 0%float || PrimFloat.is_nan f)
  | JStr s => negb (String.eqb s EmptyString)
  | JArr _ => true
  | JObj _ => true
  end.

(** [a || b] *)
Definition or_else (a b : JsValue) : JsValue := if truthy a then a else b.

(** [v === 'literal'] for a string literal. *)
Definition eq_str (v : JsValue) (lit : string) : bool :=
  match v with
  | JStr s => String.eqb s lit
  | _ => false
  end.

(** [[...literals].includes(v)] for an array of string literals. *)
Definition includes (lits : list string) (v : JsValue) : bool :=
  existsb (eq_str v) lits.

Fixpoint own (fields : list (string * JsValue)) (k : string) : JsValue :=
  match fields with
  | [] => JUndefined
  | (k', v) :: rest => if String.eqb k' k then v else own rest k
  end.

(** [v.k] for the member names the handlers read ([type], [data], [status],
    [completion_percentage], [current_node], [message]): none of them is a
    built-in member of a primitive or of an array, so on those the read gives
    [undefined]; reading a member of [undefined] or [null] throws. *)
Definition get (v : JsValue) (k : string) : Completion JsValue :=
  match v with
  | JUndefined | JNull => Throw TypeError
  | JObj fields => Normal (own fields k)
  | JBool _ | JNum _ | JStr _ | JArr _ => Normal JUndefined
  end.

End Js.
Import Js.

Notation "x <- c ;; k" := (cbind c (fun x => k))
  (at level 61, c at next level, right associativity).

(** ** The Project entity *)

(** Modelled from the spec: the declarations of [../types] are not among the
    sources. The artifact bundle has the four parts of the data model, under
    the member names the detail page reads. *)
Record Artifacts : Type := {
  architecture : JsValue;
  code_files : list (string * string);
  validation_results : JsValue;
  iteration_metrics : list JsValue
}.

(** Modelled from the spec: the [Project] interface of [../types], as the
    members the components read. The three members a [status_update] frame
    overwrites hold whatever value the frame carried, hence [JsValue]. *)
Record Project : Type := {
  project_id : string;
  name : string;
  requirements : string;
  status : JsValue;
  completion_percentage : JsValue;
  current_node : JsValue;
  errors : list string;
  artifacts : option Artifacts;
  created_at : string;
  updated_at : string
}.

(** [{ ...prev, status: s, completion_percentage: c, current_node: n }] *)
Definition spread_with (prev : Project) (s c n : JsValue) : Project :=
  {| project_id := project_id prev;
     name := name prev;
     requirements := requirements prev;
     status := s;
     completion_percentage := c;
     current_node := n;
     errors := errors prev;
     artifacts := artifacts prev;
     created_at := created_at prev;
     updated_at := updated_at prev |}.

(** ** The [status_update] merge

    The updater passed to [setProject] in [ws.current.onmessage]:
    [[
      prev => {
        if (!prev) return prev;
        return { ...prev,
          status: message.data.status || prev.status,
          completion_percentage:
            message.data.completion_percentage || prev.completion_percentage,
          current_node: message.data.current_node || prev.current_node };
      }
    ]] *)
Definition status_update_updater (message : JsValue) (prev : option Project)
  : Completion (option Project) :=
  match prev with
  | None => Normal None
  | Some p =>
      d1 <- get message "data" ;;
      s <- get d1 "status" ;;
      d2 <- get message "data" ;;
      c <- get d2 "completion_percentage" ;;
      d3 <- get message "data" ;;
      n <- get d3 "current_node" ;;
      Normal (Some (spread_with p
                      (or_else s (status p))
                      (or_else c (completion_percentage p))
                      (or_else n (current_node p))))
  end.

(** Result of an HTTP request made through the [api] axios instance: the
    promise resolves with the response body or rejects. *)
Inductive HttpOutcome (A : Type) : Type :=
| HttpOk (data : A)
| HttpFail.
Arguments HttpOk {A} data.
Arguments HttpFail {A}.

(** What a component does to the outside world. A component's [effects] list
    holds them in the order they happen. *)
Inductive Effect : Type :=
| ConsoleLog (text : string)    (* console.log(text) *)
| ConsoleError (text : string)  (* console.error(text, err) *)
| ConsoleErrorValue             (* console.error(err) *)
| Toast (title : string) (description : JsValue) (kind : string)
| HttpGet (url : string)        (* api.get(url) *)
| HttpPost (url : string)       (* api.post(url) *)
| WsSend (frame : JsValue)      (* ws.current.send(JSON.stringify(frame)) *)
| WsClose.                      (* ws.current.close() *)

(** The response interceptor of [utils/api] logs every rejected request before
    it passes the rejection on. *)
Definition api_error_logged : Effect := ConsoleError "API Error:".

Definition is_get (e : Effect) : bool :=
  match e with
  | HttpGet _ => true
  | _ => false
  end.

(** ** The ProjectDetail page *)

Module ProjectDetail.

(** [WebSocket.readyState] *)
Inductive ReadyState : Type := CONNECTING | OPEN | CLOSING | CLOSED.

(** The component's [useState] cells, its [ws] ref and interval, and the two
    logs of what it did: [effects], and [unhandled] for exceptions thrown where
    no [catch] of the component encloses them. *)
Record State : Type := {
  projectId : option string;    (* useParams(): string | undefined *)
  project : option Project;
  loading : bool;
  error : option string;
  isRunning : bool;
  ws : option ReadyState;       (* ws.current: null, or the socket's readyState *)
  pingInterval : bool;          (* the 30000 ms interval is registered *)
  mounted : bool;
  effects : list Effect;
  unhandled : list JsError
}.

Definition setProject (v : option Project) (st : State) : State :=
  {| projectId := projectId st; project := v; loading := loading st;
     error := error st; isRunning := isRunning st; ws := ws st;
     pingInterval := pingInterval st; mounted := mounted st;
     effects := effects st; unhandled := unhandled st |}.

Definition setLoading (v : bool) (st : State) : State :=
  {| projectId := projectId st; project := project st; loading := v;
     error := error st; isRunning := isRunning st; ws := ws st;
     pingInterval := pingInterval st; mounted := mounted st;
     effects := effects st; unhandled := unhandled st |}.

Definition setError (v : option string) (st : State) : State :=
  {| projectId := projectId st; project := project st; loading := loading st;
     error := v; isRunning := isRunning st; ws := ws st;
     pingInterval := pingInterval st; mounted := mounted st;
     effects := effects st; unhandled := unhandled st |}.

Definition setIsRunning (v : bool) (st : State) : State :=
  {| projectId := projectId st; project := project st; loading := loading st;
     error := error st; isRunning := v; ws := ws st;
     pingInterval := pingInterval st; mounted := mounted st;
     effects := effects st; unhandled := unhandled st |}.

Definition set_ws (v : option ReadyState) (st : State) : State :=
  {| projectId := projectId st; project := project st; loading := loading st;
     error := error st; isRunning := isRunning st; ws := v;
     pingInterval := pingInterval st; mounted := mounted st;
     effects := effects st; unhandled := unhandled st |}.

Definition set_pingInterval (v : bool) (st : State) : State :=
  {| projectId := projectId st; project := project st; loading := loading st;
     error := error st; isRunning := isRunning st; ws := ws st;
     pingInterval := v; mounted := mounted st;
     effects := effects st; unhandled := unhandled st |}.

Definition set_mounted (v : bool) (st : State) : State :=
  {| projectId := projectId st; project := project st; loading := loading st;
     error := error st; isRunning := isRunning st; ws := ws st;
     pingInterval := pingInterval st; mounted := v;
     effects := effects st; unhandled := unhandled st |}.

Definition emit (e : Effect) (st : State) : State :=
  {| projectId := projectId st; project := project st; loading := loading st;
     error := error st; isRunning := isRunning st; ws := ws st;
     pingInterval := pingInterval st; mounted := mounted st;
     effects := effects st ++ [e]; unhandled := unhandled st |}.

Definition escape (e : JsError) (st : State) : State :=
  {| projectId := projectId st; project := project st; loading := loading st;
     error := error st; isRunning := isRunning st; ws := ws st;
     pingInterval := pingInterval st; mounted := mounted st;
     effects := effects st; unhandled := unhandled st ++ [e] |}.

(** [setProject(updater)]: React calls the updater with the latest state when
    it processes the update, after the event handler's own statement has
    returned. An exception of the updater is therefore thrown outside the
    handler's [try] block; it leaves the state cell as it was and is recorded
    in [unhandled]. *)
Definition setProject_with (updater : option Project -> Completion (option Project))
    (st : State) : State :=
  match updater (project st) with
  | Normal p => setProject p st
  | Throw e => escape e st
  end.

(** [!projectId]: [undefined] and the empty string are falsy. *)
Definition id_of (st : State) : option string :=
  match projectId st with
  | Some id => if String.eqb id EmptyString then None else Some id
  | None => None
  end.

(** Statements of a handler body: they update the state and either complete
    or throw. *)
Definition Handler (A : Type) : Type := State -> State * Completion A.

Definition ret {A} (a : A) : Handler A := fun st => (st, Normal a).

Definition bind {A B} (m : Handler A) (k : A -> Handler B) : Handler B :=
  fun st =>
    match m st with
    | (st', Normal a) => k a st'
    | (st', Throw e) => (st', Throw e)
    end.

Definition eval {A} (c : Completion A) : Handler A := fun st => (st, c).

Definition act (f : State -> State) : Handler unit := fun st => (f st, Normal tt).

(** [try { body } catch (err) { handler }] *)
Definition try_catch (body : Handler unit) (handler : JsError -> State -> State)
    (st : State) : State :=
  match body st with
  | (st', Normal _) => st'
  | (st', Throw e) => handler e st'
  end.

Notation "x <~ m ;;; k" := (bind m (fun x => k))
  (at level 61, m at next level, right associativity).
Notation "m ;;; k" := (bind m (fun _ => k))
  (at level 61, right associativity).

(** [loadProject], up to its [await]: the request of [getProject] is issued. *)
Definition loadProject (st : State) : State :=
  match id_of st with
  | None => st
  | Some id => emit (HttpGet ("/api/projects/" ++ id))
                     (setError None (setLoading true st))
  end.

(** [getProject] after its request settled: the body, or [null] after logging. *)
Definition getProject_settled (o : HttpOutcome Project) (st : State)
  : State * option Project :=
  match o with
  | HttpOk data => (st, Some data)
  | HttpFail =>
      (emit (ConsoleError "Failed to fetch project:") (emit api_error_logged st),
       None)
  end.

(** [loadProject] from its [await] on: the full replace of the held Project. *)
Definition loadProject_resume (o : HttpOutcome Project) (st : State) : State :=
  let '(st1, projectData) := getProject_settled o st in
  let st2 :=
    match projectData with
    | Some data =>
        setIsRunning (eq_str (status data) "running") (setProject (Some data) st1)
    | None => setError (Some "Project not found") st1
    end in
  setLoading false st2.

Definition error_toast (description : JsValue) : Effect :=
  Toast "Error" description "error".

Definition completion_toast : Effect :=
  Toast "Project completed"
        (JStr "Your application has been generated successfully") "success".

(** The branches of [ws.current.onmessage], first the second half of the
    [status_update] branch, which updates the running state. *)
Definition update_running_state (message : JsValue) : Handler unit :=
  data1 <~ eval (get message "data") ;;;
  status1 <~ eval (get data1 "status") ;;;
  if eq_str status1 "running" then
    act (setIsRunning true)
  else
    data2 <~ eval (get message "data") ;;;
    status2 <~ eval (get data2 "status") ;;;
    if includes ["completed"; "failed"; "cancelled"] status2 then
      act (setIsRunning false) ;;;
      act loadProject
    else ret tt.

Definition on_status_update (message : JsValue) : Handler unit :=
  act (setProject_with (status_update_updater message)) ;;;
  update_running_state message.

Definition on_error (message : JsValue) : Handler unit :=
  data <~ eval (get message "data") ;;;
  text <~ eval (get data "message") ;;;
  act (emit (error_toast (or_else text (JStr "An error occurred")))).

Definition on_completion : Handler unit :=
  act (emit completion_toast) ;;;
  act loadProject.

(** The [if / else if / else if] chain on [message.type]. *)
Definition dispatch (message : JsValue) : Handler unit :=
  type1 <~ eval (get message "type") ;;;
  if eq_str type1 "status_update" then on_status_update message
  else
    type2 <~ eval (get message "type") ;;;
    if eq_str type2 "error" then on_error message
    else
      type3 <~ eval (get message "type") ;;;
      if eq_str type3 "completion" then on_completion
      else ret tt.

Section OnMessage.

(** [JSON.parse] belongs to the runtime: it yields the decoded value or throws
    a [SyntaxError]. *)
Variable JSON_parse : string -> Completion JsValue.

(** The body of the [try] block of [ws.current.onmessage]. *)
Definition onmessage_body (event_data : string) : Handler unit :=
  message <~ eval (JSON_parse event_data) ;;;
  dispatch message.

Definition onmessage (event_data : string) : State -> State :=
  try_catch (onmessage_body event_data)
            (fun _ => emit (ConsoleError "Error parsing WebSocket message:")).

End OnMessage.

(** The keep-alive interval and the effect's clean-up:
    [[
      const pingInterval = setInterval(() => {
        if (ws.current && ws.current.readyState === WebSocket.OPEN) {
          ws.current.send(JSON.stringify({ type: 'ping' }));
        }
      }, 30000);
      return () => { clearInterval(pingInterval);
                     if (ws.current) { ws.current.close(); } };
    ]] *)
Definition ping_interval_ms : Z := 30000%Z.

Definition ping_frame : JsValue := JObj [("type", JStr "ping")].

Definition ping_callback (st : State) : State :=
  match ws st with
  | Some OPEN => emit (WsSend ping_frame) st
  | _ => st
  end.

(** [close()] starts the closing handshake of a socket that is connecting or
    open and does nothing to one that is closing or closed. *)
Definition ws_close (st : State) : State :=
  match ws st with
  | Some CONNECTING | Some OPEN => set_ws (Some CLOSING) (emit WsClose st)
  | Some CLOSING | Some CLOSED => emit WsClose st
  | None => st
  end.

Definition cleanup (st : State) : State :=
  ws_close (set_pingInterval false st).

(** The socket effect: nothing without a project id, else a new socket and the
    ping interval. *)
Definition setup_websocket (st : State) : State :=
  match id_of st with
  | None => st
  | Some _ => set_pingInterval true (set_ws (Some CONNECTING) st)
  end.

(** First render followed by its two effects, the socket and the initial load. *)
Definition mount (id : option string) : State :=
  loadProject
    (setup_websocket
       {| projectId := id; project := None; loading := true; error := None;
          isRunning := false; ws := None; pingInterval := false;
          mounted := true; effects := []; unhandled := [] |}).

(** [runProject] of the context after its request settled. *)
Definition runProject_settled (o : HttpOutcome unit) (st : State) : State * bool :=
  match o with
  | HttpOk _ => (st, true)
  | HttpFail =>
      (emit (ConsoleError "Failed to run project:") (emit api_error_logged st),
       false)
  end.

Definition started_toast : Effect :=
  Toast "Project started" (JStr "The application generation has started") "info".

Definition start_failed_toast : Effect :=
  Toast "Start failed" (JStr "Failed to start the project") "error".

(** [handleRunProject], up to its [await]. *)
Definition handleRunProject (st : State) : State :=
  match id_of st with
  | None => st
  | Some id => emit (HttpPost ("/api/projects/" ++ id ++ "/run")) st
  end.

(** [handleRunProject] from its [await] on. *)
Definition handleRunProject_resume (o : HttpOutcome unit) (st : State) : State :=
  let '(st1, success) := runProject_settled o st in
  if success then emit started_toast (setIsRunning true st1)
  else emit start_failed_toast st1.

(** The render-time gates. *)
Definition canRun (p : Project) : bool :=
  includes ["created"; "failed"; "cancelled"; "completed"] (status p).

Definition canCancel (p : Project) : bool := eq_str (status p) "running".

Definition canDownload (p : Project) : bool :=
  includes ["completed"; "partially_completed"] (status p).

(** The page body is rendered when neither the spinner nor an alert replaces
    it: [error] is falsy and a project is held. *)
Definition error_shown (st : State) : bool :=
  match error st with
  | Some msg => negb (String.eqb msg EmptyString)
  | None => false
  end.

(** [{canRun && (<Button onClick={handleRunProject} ...>)}] *)
Definition start_button_rendered (st : State) : bool :=
  if error_shown st then false
  else match project st with
       | Some p => canRun p
       | None => false
       end.

(** The button is rendered with [isLoading={isRunning}], which disables it
    while a run is in progress; pressing an enabled button calls
    [handleRunProject]. *)
Definition start_button_enabled (st : State) : bool :=
  start_button_rendered st && negb (isRunning st).

Definition press_start (st : State) : State :=
  if start_button_enabled st then handleRunProject st else st.

(** Events that reach the mounted component. *)
Inductive Event : Type :=
| WsOpened                                   (* onopen *)
| WsMessage (event_data : string)            (* onmessage *)
| WsErrored                                  (* onerror *)
| WsClosed                                   (* onclose *)
| PingTick                                   (* the interval fires *)
| GetProjectSettled (o : HttpOutcome Project)
| PressStart
| RunSettled (o : HttpOutcome unit)
| Unmount.

Section Machine.

Variable JSON_parse : string -> Completion JsValue.

(** One event, handled to completion. The browser delivers a message only on
    an open socket and fires an interval only while it is registered. *)
Definition step (st : State) (ev : Event) : State :=
  match ev with
  | WsOpened =>
      match ws st with
      | Some CONNECTING => emit (ConsoleLog "WebSocket connected") (set_ws (Some OPEN) st)
      | _ => st
      end
  | WsMessage event_data =>
      match ws st with
      | Some OPEN => onmessage JSON_parse event_data st
      | _ => st
      end
  | WsErrored =>
      match ws st with
      | Some _ => emit (ConsoleError "WebSocket error:") st
      | None => st
      end
  | WsClosed =>
      match ws st with
      | Some CLOSED | None => st
      | Some _ => emit (ConsoleLog "WebSocket disconnected") (set_ws (Some CLOSED) st)
      end
  | PingTick => if pingInterval st then ping_callback st else st
  | GetProjectSettled o => if mounted st then loadProject_resume o st else st
  | PressStart => if mounted st then press_start st else st
  | RunSettled o => if mounted st then handleRunProject_resume o st else st
  | Unmount => if mounted st then set_mounted false (cleanup st) else st
  end.

Definition run (st : State) (evs : list Event) : State := fold_left step evs st.

End Machine.

End ProjectDetail.

(** ** The project list: ProjectProvider and the Dashboard interval *)

Module ProjectProvider.

(** The provider's [useState] cells. [outstanding] is a ghost counter, not a
    variable of the program: the number of [fetchProjects] requests that were
    issued and have not settled yet. *)
Record State : Type := {
  projects : list Project;
  loading : bool;
  error : option string;
  outstanding : nat;
  effects : list Effect
}.

(** [fetchProjects], up to its [await]. *)
Definition fetchProjects (st : State) : State :=
  {| projects := projects st;
     loading := true;
     error := None;
     outstanding := S (outstanding st);
     effects := effects st ++ [HttpGet "/api/projects"] |}.

(** [fetchProjects] from its [await] on: [try] on success, [catch] on failure,
    then [finally]. *)
Definition fetchProjects_resume (o : HttpOutcome (list Project)) (st : State) : State :=
  match o with
  | HttpOk data =>
      {| projects := data;
         loading := false;
         error := error st;
         outstanding := pred (outstanding st);
         effects := effects st |}
  | HttpFail =>
      {| projects := projects st;
         loading := false;
         error := Some "Failed to fetch projects";
         outstanding := pred (outstanding st);
         effects := effects st ++ [api_error_logged; ConsoleErrorValue] |}
  end.

(** First render and the mount effect, which fetches once. *)
Definition mount : State :=
  fetchProjects
    {| projects := []; loading := false; error := None;
       outstanding := 0; effects := [] |}.

End ProjectProvider.

Module Dashboard.

(** The Dashboard reads the provider's context and owns one interval:
    [[
      const interval = setInterval(() => { fetchProjects(); }, 10000);
      return () => clearInterval(interval);
    ]]
    The effect depends on [fetchProjects], so a re-render of the provider
    replaces the interval by a fresh one; one interval is registered from
    mount to unmount, and [Tick] is the firing of whichever is current. *)
Record State : Type := {
  context : ProjectProvider.State;
  interval : bool
}.

Definition refresh_interval_ms : Z := 10000%Z.

Definition interval_callback (st : State) : State :=
  {| context := ProjectProvider.fetchProjects (context st);
     interval := interval st |}.

Definition mount (ctx : ProjectProvider.State) : State :=
  {| context := ctx; interval := true |}.

Inductive Event : Type :=
| Tick                                          (* the interval fires *)
| Settled (o : HttpOutcome (list Project))      (* a request of fetchProjects settles *)
| Unmount.

Definition step (st : State) (ev : Event) : State :=
  match ev with
  | Tick => if interval st then interval_callback st else st
  | Settled o =>
      {| context := ProjectProvider.fetchProjects_resume o (context st);
         interval := interval st |}
  | Unmount => {| context := context st; interval := false |}
  end.

Definition run (st : State) (evs : list Event) : State := fold_left step evs st.

(** Requests issued so far. *)
Definition issued (st : State) : nat :=
  length (filter is_get (ProjectProvider.effects (context st))).

End Dashboard.

(** ** Sample data *)

(** A double-quoted JSON string token. *)
Definition quoted (s : string) : string :=
  String "034"%char (s ++ String "034"%char EmptyString).

(** [{"type":"completion"}] *)
Definition completion_text : string :=
  "{" ++ quoted "type" ++ ":" ++ quoted "completion" ++ "}".

(** [{"type":"status_update","data":{"status":"running"}}] *)
Definition running_text : string :=
  "{" ++ quoted "type" ++ ":" ++ quoted "status_update" ++ "," ++
  quoted "data" ++ ":{" ++ quoted "status" ++ ":" ++ quoted "running" ++ "}}".

Definition completion_frame : JsValue := JObj [("type", JStr "completion")].

Definition running_frame : JsValue :=
  JObj [("type", JStr "status_update");
        ("data", JObj [("status", JStr "running")])].

(** [{ type: 'status_update', data: { completion_percentage: pct } }] *)
Definition progress_frame (pct : float) : JsValue :=
  JObj [("type", JStr "status_update");
        ("data", JObj [("completion_percentage", JNum pct)])].

(** [{ type: 'status_update',
       data: { status: '', completion_percentage: 0, current_node: '' } }] *)
Definition falsy_frame : JsValue :=
  JObj [("type", JStr "status_update");
        ("data", JObj [("status", JStr EmptyString);
                       ("completion_percentage", JNum 0%float);
                       ("current_node", JStr EmptyString)])].

(** [{ type: 'status_update',
       data: { status: 'completed', completion_percentage: 0 } }] *)
Definition zero_progress_frame : JsValue :=
  JObj [("type", JStr "status_update");
        ("data", JObj [("status", JStr "completed");
                       ("completion_percentage", JNum 0%float)])].

(** [JSON.parse] on the texts the examples use: the two frames above decode to
    their values, and [not json], which is no JSON text, is rejected. This is a
    table for the examples, not a JSON parser. *)
Definition sample_parse (text : string) : Completion JsValue :=
  if String.eqb text completion_text then Normal completion_frame
  else if String.eqb text running_text then Normal running_frame
  else Throw SyntaxError.

Definition sample_artifacts : Artifacts :=
  {| architecture := JObj [("summary", JStr "todo app")];
     code_files := [("src/app.py", "print(1)")];
     validation_results := JObj [];
     iteration_metrics := [] |}.

Definition sample_job (st pct : JsValue) (a : option Artifacts) : Project :=
  {| project_id := "p1";
     name := "App";
     requirements := "Build a todo app";
     status := st;
     completion_percentage := pct;
     current_node := JStr "coding";
     errors := [];
     artifacts := a;
     created_at := "2024-01-01T00:00:00Z";
     updated_at := "2024-01-01T00:05:00Z" |}.

(** A mounted detail page with an open socket that holds [p]. *)
Definition watching (p : Project) : ProjectDetail.State :=
  {| ProjectDetail.projectId := Some "p1";
     ProjectDetail.project := Some p;
     ProjectDetail.loading := false;
     ProjectDetail.error := None;
     ProjectDetail.isRunning := false;
     ProjectDetail.ws := Some ProjectDetail.OPEN;
     ProjectDetail.pingInterval := true;
     ProjectDetail.mounted := true;
     ProjectDetail.effects := [];
     ProjectDetail.unhandled := [] |}.

(** A mounted dashboard with no request outstanding. *)
Definition idle_dashboard : Dashboard.State :=
  Dashboard.mount
    {| ProjectProvider.projects := [sample_job (JStr "running") (JNum 65%float) None];
       ProjectProvider.loading := false;
       ProjectProvider.error := None;
       ProjectProvider.outstanding := 0;
       ProjectProvider.effects := [] |}.

(** ** Observations used in the statements *)

(** The value a [status_update] frame carries for member [k]:
    [message.data.k]. *)
Definition carried (message : JsValue) (k : string) : Completion JsValue :=
  d <- get message "data" ;; get d k.

(** [getProject] requests among the effects. *)
Definition fetches (st : ProjectDetail.State) : nat :=
  length (filter is_get (ProjectDetail.effects st)).

(** Frames sent on the socket among the effects. *)
Definition sent (st : ProjectDetail.State) : list JsValue :=
  flat_map (fun e => match e with
                     | WsSend frame => [frame]
                     | _ => []
                     end)
           (ProjectDetail.effects st).

(** The artifact bundle of the project the page holds, if any. *)
Definition held_artifacts (st : ProjectDetail.State) : option Artifacts :=
  match ProjectDetail.project st with
  | Some p => artifacts p
  | None => None
  end.

(** The parts of the detail page's state that no message handler writes. *)
Definition same_frame (st st' : ProjectDetail.State) : Prop :=
  ProjectDetail.projectId st' = ProjectDetail.projectId st /\
  ProjectDetail.ws st' = ProjectDetail.ws st /\
  ProjectDetail.pingInterval st' = ProjectDetail.pingInterval st /\
  ProjectDetail.mounted st' = ProjectDetail.mounted st.

Definition same_project (st st' : ProjectDetail.State) : Prop :=
  ProjectDetail.project st' = ProjectDetail.project st.

(** A handler statement whose every run relates the state before to the
    state after by [R]. *)
Definition keeps (R : ProjectDetail.State -> ProjectDetail.State -> Prop)
    {A} (m : ProjectDetail.Handler A) : Prop :=
  forall st, R st (fst (m st)).

(** The project the page holds after a frame, as a function of the decoded
    frame and the project held before. *)
Definition project_after (parsed : Completion JsValue) (prev : option Project)
  : option Project :=
  match parsed with
  | Normal message =>
      match get message "type" with
      | Normal type =>
          if eq_str type "status_update" then
            match status_update_updater message prev with
            | Normal next => next
            | Throw _ => prev
            end
          else prev
      | Throw _ => prev
      end
  | Throw _ => prev
  end.

(** What holds of every state the detail page can be in: a socket exists only
    for a project id, and while it is connecting or open the component is
    mounted and its ping interval registered. *)
Definition wired (st : ProjectDetail.State) : Prop :=
  (ProjectDetail.ws st = None \/ ProjectDetail.id_of st <> None) /\
  (ProjectDetail.ws st = Some ProjectDetail.CONNECTING \/
   ProjectDetail.ws st = Some ProjectDetail.OPEN ->
   ProjectDetail.mounted st = true /\ ProjectDetail.pingInterval st = true).

(** ** Further code of the same files *)

(** *** ProjectDetail: cancelling, and the buttons next to start *)

Module ProjectActions.

Import ProjectDetail.

(** [cancelProject] of the context after its request settled. *)
Definition cancelProject_settled (o : HttpOutcome unit) (st : State) : State * bool :=
  match o with
  | HttpOk _ => (st, true)
  | HttpFail =>
      (emit (ConsoleError "Failed to cancel project:") (emit api_error_logged st),
       false)
  end.

Definition cancelled_toast : Effect :=
  Toast "Project cancelled"
        (JStr "The application generation has been cancelled") "warning".

Definition cancel_failed_toast : Effect :=
  Toast "Cancel failed" (JStr "Failed to cancel the project") "error".

(** [handleCancelProject], up to its [await]. *)
Definition handleCancelProject (st : State) : State :=
  match id_of st with
  | None => st
  | Some id => emit (HttpPost ("/api/projects/" ++ id ++ "/cancel")) st
  end.

(** [handleCancelProject] from its [await] on: on success the running flag is
    cleared, the toast shown and the project reloaded. *)
Definition handleCancelProject_resume (o : HttpOutcome unit) (st : State) : State :=
  let '(st1, success) := cancelProject_settled o st in
  if success then loadProject (emit cancelled_toast (setIsRunning false st1))
  else emit cancel_failed_toast st1.

(** [{canCancel && (<Button onClick={handleCancelProject} ...>)}] and
    [{canDownload && (<Button onClick={handleDownloadCode} ...>)}], inside the
    page body like the start button. *)
Definition cancel_button_rendered (st : State) : bool :=
  if error_shown st then false
  else match project st with
       | Some p => canCancel p
       | None => false
       end.

Definition download_button_rendered (st : State) : bool :=
  if error_shown st then false
  else match project st with
       | Some p => canDownload p
       | None => false
       end.

Definition press_cancel (st : State) : State :=
  if cancel_button_rendered st then handleCancelProject st else st.

End ProjectActions.

(** *** ProjectContext: createProject *)

Module ProjectContext.

Import ProjectProvider.

Definition log (e : Effect) (st : State) : State :=
  {| projects := projects st;
     loading := loading st;
     error := error st;
     outstanding := outstanding st;
     effects := effects st ++ [e] |}.

(** Where a call of [createProject] stands: waiting for the list refresh it
    started, with the id the server answered, or returned to its caller. *)
Inductive Creation : Type :=
| Refreshing (project_id : string)
| Returned (result : option string).

(** [createProject], up to its first [await]: the POST is issued. *)
Definition createProject (st : State) : State :=
  log (HttpPost "/api/projects") st.

(** After the POST settled: on success [await fetchProjects()] starts the list
    refresh; on failure the [catch] logs and the call returns [null]. *)
Definition createProject_posted (o : HttpOutcome string) (st : State)
  : State * Creation :=
  match o with
  | HttpOk project_id => (fetchProjects st, Refreshing project_id)
  | HttpFail =>
      (log (ConsoleError "Failed to create project:") (log api_error_logged st),
       Returned None)
  end.

(** After the refresh settled, whatever its outcome ([fetchProjects] catches
    its own failure): [return response.data.project_id]. *)
Definition createProject_refreshed (project_id : string)
    (o : HttpOutcome (list Project)) (st : State) : State * Creation :=
  (fetchProjects_resume o st, Returned (Some project_id)).

(** GET requests issued so far. *)
Definition gets (st : State) : nat := length (filter is_get (effects st)).

End ProjectContext.

(** *** Dashboard: what is rendered *)

Module DashboardView.

(** The four alternatives of the Dashboard's conditional:
    [[
      loading && projects.length === 0 ? spinner
      : error ? error box
      : projects.length === 0 ? "No projects found"
      : table of projects
    ]] *)
Inductive View : Type :=
| LoadingSpinner
| ErrorBox (message : string)
| NoProjects
| ProjectTable (rows : list Project).

Definition is_empty {A} (l : list A) : bool :=
  match l with
  | [] => true
  | _ :: _ => false
  end.

Definition render (ctx : ProjectProvider.State) : View :=
  if ProjectProvider.loading ctx && is_empty (ProjectProvider.projects ctx)
  then LoadingSpinner
  else
    match ProjectProvider.error ctx with
    | Some message =>
        if String.eqb message EmptyString then
          if is_empty (ProjectProvider.projects ctx) then NoProjects
          else ProjectTable (ProjectProvider.projects ctx)
        else ErrorBox message
    | None =>
        if is_empty (ProjectProvider.projects ctx) then NoProjects
        else ProjectTable (ProjectProvider.projects ctx)
    end.

End DashboardView.

(** *** ProjectCreate: the form's submit handler *)

Module ProjectCreate.

(** What the form does to the outside world. *)
Inductive Action : Type :=
| ShowToast (title description kind : string)
| CallCreateProject (name requirements : string)   (* createProject(name, requirements) *)
| Navigate (path : string).                        (* navigate(path) *)

Record State : Type := {
  name : string;
  requirements : string;
  isLoading : bool;
  actions : list Action
}.

Definition act (a : Action) (st : State) : State :=
  {| name := name st; requirements := requirements st;
     isLoading := isLoading st; actions := actions st ++ [a] |}.

Definition setIsLoading (v : bool) (st : State) : State :=
  {| name := name st; requirements := requirements st;
     isLoading := v; actions := actions st |}.

Definition is_blank (s : string) : bool := String.eqb s EmptyString.

Section Submit.

(** [String.prototype.trim] belongs to the runtime. *)
Variable trim : string -> string.

(** [handleSubmit], up to its [await] ([e.preventDefault()] aside, which
    touches no state): the two checks, each with its warning toast and
    [return], then the call of [createProject] with the values as typed. *)
Definition handleSubmit (st : State) : State :=
  if is_blank (trim (name st)) then
    act (ShowToast "Name required" "Please provide a project name" "warning") st
  else if is_blank (trim (requirements st)) then
    act (ShowToast "Requirements required"
                   "Please provide project requirements" "warning") st
  else
    act (CallCreateProject (name st) (requirements st)) (setIsLoading true st).

End Submit.

(** [handleSubmit] from its [await] on: [projectId] is what [createProject]
    returned; an empty id is falsy like [null]. *)
Definition handleSubmit_resume (projectId : option string) (st : State) : State :=
  let st1 :=
    match projectId with
    | Some id =>
        if is_blank id then
          act (ShowToast "Creation failed" "Failed to create the project" "error") st
        else
          act (Navigate ("/projects/" ++ id))
              (act (ShowToast "Project created"
                              "Your project has been created successfully"
                              "success") st)
    | None =>
        act (ShowToast "Creation failed" "Failed to create the project" "error") st
    end in
  setIsLoading false st1.

(** The navigations and the calls of [createProject] among the actions. *)
Definition navigations (st : State) : list string :=
  flat_map (fun a => match a with
                     | Navigate path => [path]
                     | _ => []
                     end) (actions st).

Definition create_calls (st : State) : list (string * string) :=
  flat_map (fun a => match a with
                     | CallCreateProject n r => [(n, r)]
                     | _ => []
                     end) (actions st).

(** [trim] on texts whose only white space is the ASCII space, for the
    examples. *)
Fixpoint drop_spaces (s : string) : string :=
  match s with
  | String c rest => if Ascii.eqb c " "%char then drop_spaces rest else s
  | EmptyString => s
  end.

Fixpoint reverse (s : string) : string :=
  match s with
  | EmptyString => EmptyString
  | String c rest => reverse rest ++ String c EmptyString
  end.

Definition trim_spaces (s : string) : string :=
  reverse (drop_spaces (reverse (drop_spaces s))).

End ProjectCreate.

(** *** CodeViewer: the language of a file *)

Module CodeViewer.

(** [s.split('.')]: the pieces between the dots; a text without a dot is its
    own single piece. *)
Fixpoint split_dot (s : string) : list string :=
  match s with
  | EmptyString => [EmptyString]
  | String c rest =>
      if Ascii.eqb c "."%char then EmptyString :: split_dot rest
      else match split_dot rest with
           | piece :: pieces => String c piece :: pieces
           | [] => [String c EmptyString]
           end
  end.

(** [pieces.pop()] *)
Definition pop (pieces : list string) : option string :=
  match rev pieces with
  | [] => None
  | piece :: _ => Some piece
  end.

(** [toLowerCase] on the letters A to Z. The characters outside ASCII that
    [toLowerCase] changes do not turn into any key of [languageMap], so the
    look-up below is the same. *)
Definition lower_char (c : ascii) : ascii :=
  let n := nat_of_ascii c in
  if ((65 <=? n) && (n <=? 90))%nat then ascii_of_nat (n + 32) else c.

Fixpoint toLowerCase (s : string) : string :=
  match s with
  | EmptyString => EmptyString
  | String c rest => String (lower_char c) (toLowerCase rest)
  end.

(** [filename.split('.').pop()?.toLowerCase() || ''] *)
Definition extension (filename : string) : string :=
  match pop (split_dot filename) with
  | Some piece => toLowerCase piece
  | None => EmptyString
  end.

Definition languageMap : list (string * string) :=
  [("js", "javascript"); ("jsx", "jsx"); ("ts", "typescript"); ("tsx", "tsx");
   ("py", "python"); ("java", "java"); ("html", "html"); ("css", "css");
   ("json", "json"); ("md", "markdown"); ("go", "go"); ("rs", "rust");
   ("rb", "ruby"); ("php", "php"); ("c", "c"); ("cpp", "cpp");
   ("cs", "csharp"); ("sh", "bash"); ("yml", "yaml"); ("yaml", "yaml")].

Fixpoint own_entry (table : list (string * string)) (key : string) : option string :=
  match table with
  | [] => None
  | (k, v) :: rest => if String.eqb k key then Some v else own_entry rest key
  end.

(** What [getLanguage] returns: a language name, or, for the two lower-case
    keys every object literal inherits, the inherited member itself. *)
Inductive Language : Type :=
| Named (name : string)
| InheritedMember (key : string).

(** [languageMap[ext] || 'text'] *)
Definition language_of (ext : string) : Language :=
  match own_entry languageMap ext with
  | Some language => Named language
  | None =>
      if String.eqb ext "constructor" || String.eqb ext "__proto__"
      then InheritedMember ext
      else Named "text"
  end.

Definition getLanguage (filename : string) : Language :=
  language_of (extension filename).

Fixpoint has_dot (s : string) : bool :=
  match s with
  | EmptyString => false
  | String c rest => Ascii.eqb c "."%char || has_dot rest
  end.

End CodeViewer.

(** *** More observations and sample data *)

(** [{"type":"pong"}] and the JSON text [null]. *)
Definition pong_text : string :=
  "{" ++ quoted "type" ++ ":" ++ quoted "pong" ++ "}".

Definition pong_frame : JsValue := JObj [("type", JStr "pong")].

(** [{ type: 'error', data: { message: text } }] *)
Definition error_frame (text : string) : JsValue :=
  JObj [("type", JStr "error"); ("data", JObj [("message", JStr text)])].

(** [{"type":"error","data":{"message":"disk full"}}] *)
Definition error_text : string :=
  "{" ++ quoted "type" ++ ":" ++ quoted "error" ++ "," ++
  quoted "data" ++ ":{" ++ quoted "message" ++ ":" ++ quoted "disk full" ++ "}}".

(** [{"type":"status_update","data":{"status":"completed"}}] *)
Definition completed_text : string :=
  "{" ++ quoted "type" ++ ":" ++ quoted "status_update" ++ "," ++
  quoted "data" ++ ":{" ++ quoted "status" ++ ":" ++ quoted "completed" ++ "}}".

Definition completed_frame : JsValue :=
  JObj [("type", JStr "status_update");
        ("data", JObj [("status", JStr "completed")])].

(** [JSON.parse] on further texts the examples use; a table like
    [sample_parse]. *)
Definition frames_parse (text : string) : Completion JsValue :=
  if String.eqb text pong_text then Normal pong_frame
  else if String.eqb text "null" then Normal JNull
  else if String.eqb text error_text then Normal (error_frame "disk full")
  else if String.eqb text completed_text then Normal completed_frame
  else sample_parse text.

(** The one line the handler's [catch] writes. *)
Definition parse_error_logged : ProjectDetail.State -> ProjectDetail.State :=
  ProjectDetail.emit (ConsoleError "Error parsing WebSocket message:").

(** The value a frame carries for member [k], [undefined] when
    [message.data] cannot be read. *)
Definition carried_value (message : JsValue) (k : string) : JsValue :=
  match carried message k with
  | Normal v => v
  | Throw _ => JUndefined
  end.

(** Status updates applied one after the other to the held Project. *)
Fixpoint apply_updates (frames : list JsValue) (prev : option Project)
  : Completion (option Project) :=
  match frames with
  | [] => Normal prev
  | message :: rest =>
      next <- status_update_updater message prev ;;
      apply_updates rest next
  end.

(** The last truthy value the frames carry for member [k], or [current] when
    there is none. *)
Definition latest (k : string) (frames : list JsValue) (current : JsValue) : JsValue :=
  fold_left (fun acc message => or_else (carried_value message k) acc) frames current.

(** The members of a Project no status update writes. *)
Definition same_identity (p p' : Project) : Prop :=
  project_id p' = project_id p /\ name p' = name p /\
  requirements p' = requirements p /\ errors p' = errors p /\
  created_at p' = created_at p /\ updated_at p' = updated_at p.



Definition same_sent (st st' : ProjectDetail.State) : Prop := sent st' = sent st.

Definition count_ticks (evs : list ProjectDetail.Event) : nat :=
  length (filter (fun ev => match ev with
                            | ProjectDetail.PingTick => true
                            | _ => false
                            end) evs).

(** The answer of the last successful list request among [evs], or [held]
    when there is none. *)
Definition last_answer (evs : list Dashboard.Event) (held : list Project)
  : list Project :=
  fold_left (fun acc ev => match ev with
                           | Dashboard.Settled (HttpOk data) => data
                           | _ => acc
                           end) evs held.

(** * Properties *)

(** ** Relations every statement of a handler keeps *)

Section Keeps.

Import ProjectDetail.

Variable R : State -> State -> Prop.
Hypothesis R_refl : forall st, R st st.
Hypothesis R_trans : forall st1 st2 st3, R st1 st2 -> R st2 st3 -> R st1 st3.

Lemma ret_keeps {A} (a : A) : keeps R (ret a).
Proof. intros st. apply R_refl. Qed.

Lemma eval_keeps {A} (c : Completion A) : keeps R (eval c).
Proof. intros st. apply R_refl. Qed.

Lemma act_keeps f : (forall st, R st (f st)) -> keeps R (act f).
Proof. intros Hf st. apply Hf. Qed.

Lemma bind_keeps {A B} (m : Handler A) (k : A -> Handler B) :
  keeps R m -> (forall a, keeps R (k a)) -> keeps R (bind m k).
Proof.
  intros Hm Hk st. unfold bind.
  specialize (Hm st). destruct (m st) as [st1 [a | e]]; simpl in *.
  - eapply R_trans; [exact Hm | apply Hk].
  - exact Hm.
Qed.

Lemma if_keeps {A} (b : bool) (m1 m2 : Handler A) :
  keeps R m1 -> keeps R m2 -> keeps R (if b then m1 else m2).
Proof. destruct b; auto. Qed.

Lemma try_catch_keeps body handler :
  keeps R body -> (forall e st, R st (handler e st)) ->
  forall st, R st (try_catch body handler st).
Proof.
  intros Hb Hh st. unfold try_catch.
  specialize (Hb st). destruct (body st) as [st1 [u | e]]; simpl in Hb.
  - exact Hb.
  - eapply R_trans; [exact Hb | apply Hh].
Qed.

End Keeps.

Ltac keeps_steps refl trans leaf :=
  repeat first
    [ apply (ret_keeps _ refl)
    | apply (eval_keeps _ refl)
    | apply if_keeps
    | apply (bind_keeps _ trans); [ | intro ]
    | apply act_keeps; intro; leaf ].

Section HandlerFacts.

Import ProjectDetail.

Variable JSON_parse : string -> Completion JsValue.

Lemma same_frame_refl st : same_frame st st.
Proof. repeat split. Qed.

Lemma same_frame_trans st1 st2 st3 :
  same_frame st1 st2 -> same_frame st2 st3 -> same_frame st1 st3.
Proof.
  unfold same_frame. intros (a & b & c & d) (a' & b' & c' & d').
  repeat split; congruence.
Qed.

Lemma same_project_refl st : same_project st st.
Proof. reflexivity. Qed.

Lemma same_project_trans st1 st2 st3 :
  same_project st1 st2 -> same_project st2 st3 -> same_project st1 st3.
Proof. unfold same_project. congruence. Qed.

Lemma setProject_with_frame updater st : same_frame st (setProject_with updater st).
Proof. unfold setProject_with. destruct (updater (project st)); repeat split. Qed.

Lemma loadProject_frame st : same_frame st (loadProject st).
Proof. unfold loadProject. destruct (id_of st); repeat split. Qed.

Lemma loadProject_project st : same_project st (loadProject st).
Proof. unfold loadProject, same_project. destruct (id_of st); reflexivity. Qed.

Lemma id_of_frame st st' : same_frame st st' -> id_of st' = id_of st.
Proof. unfold id_of. intros (-> & _). reflexivity. Qed.

Lemma dispatch_frame message : keeps same_frame (dispatch message).
Proof.
  unfold dispatch, on_status_update, update_running_state, on_error, on_completion.
  keeps_steps same_frame_refl same_frame_trans
    ltac:(first [ apply setProject_with_frame | apply loadProject_frame
                | repeat split ]).
Qed.

Lemma onmessage_frame event_data st :
  same_frame st (onmessage JSON_parse event_data st).
Proof.
  unfold onmessage.
  apply (try_catch_keeps _ same_frame_trans).
  - unfold onmessage_body.
    apply (bind_keeps _ same_frame_trans); [apply (eval_keeps _ same_frame_refl) | ].
    intro. apply dispatch_frame.
  - intros. repeat split.
Qed.

Lemma update_running_state_project message :
  keeps same_project (update_running_state message).
Proof.
  unfold update_running_state.
  keeps_steps same_project_refl same_project_trans
    ltac:(first [ apply loadProject_project | reflexivity ]).
Qed.

Lemma on_error_project message : keeps same_project (on_error message).
Proof.
  unfold on_error.
  keeps_steps same_project_refl same_project_trans ltac:(reflexivity).
Qed.

Lemma on_completion_project : keeps same_project on_completion.
Proof.
  unfold on_completion.
  keeps_steps same_project_refl same_project_trans
    ltac:(first [ apply loadProject_project | reflexivity ]).
Qed.

(** The project held after a frame depends on the decoded frame and the
    project held before, and on nothing else. *)
Lemma onmessage_project event_data st :
  project (onmessage JSON_parse event_data st)
  = project_after (JSON_parse event_data) (project st).
Proof.
  assert (Hcatch : forall s1 (c : Completion unit),
             project (match c with
                      | Normal _ => s1
                      | Throw _ => emit (ConsoleError "Error parsing WebSocket message:") s1
                      end) = project s1)
    by (intros s1 [u | e]; reflexivity).
  unfold onmessage, try_catch, onmessage_body, project_after, bind, eval.
  destruct (JSON_parse event_data) as [message | e]; [ | reflexivity].
  unfold dispatch, bind, eval.
  destruct (get message "type") as [type | e]; [ | reflexivity].
  destruct (eq_str type "status_update") eqn:Hty.
  - unfold on_status_update, bind, act.
    pose proof (update_running_state_project message
                  (setProject_with (status_update_updater message) st)) as H.
    destruct (update_running_state message _) as [s2 c]; simpl in H.
    rewrite Hcatch. rewrite H.
    unfold setProject_with.
    destruct (status_update_updater message (project st)); reflexivity.
  - destruct (eq_str type "error").
    + pose proof (on_error_project message st) as H.
      destruct (on_error message st) as [s2 c]; simpl in H.
      rewrite Hcatch. exact H.
    + destruct (eq_str type "completion").
      * pose proof (on_completion_project st) as H.
        destruct (on_completion st) as [s2 c]; simpl in H.
        rewrite Hcatch. exact H.
      * reflexivity.
Qed.

End HandlerFacts.

(** ** The [status_update] merge *)

Section Merge.

(** A value that has one member has them all: only [undefined] and [null]
    refuse a member read. *)
Lemma get_total v k k' x : get v k = Normal x -> exists y, get v k' = Normal y.
Proof. destruct v; simpl; intros H; try discriminate; eauto. Qed.

Lemma carried_inv message k v :
  carried message k = Normal v ->
  exists d, get message "data" = Normal d /\ get d k = Normal v.
Proof.
  unfold carried, cbind. destruct (get message "data") as [d | e]; [ | discriminate].
  eauto.
Qed.

(** A merge that completes has read the three members of [message.data]. *)
Lemma updater_inv message p next :
  status_update_updater message (Some p) = Normal next ->
  exists s c n,
    carried message "status" = Normal s /\
    carried message "completion_percentage" = Normal c /\
    carried message "current_node" = Normal n /\
    next = Some (spread_with p (or_else s (status p))
                               (or_else c (completion_percentage p))
                               (or_else n (current_node p))).
Proof.
  unfold status_update_updater, carried, cbind.
  destruct (get message "data") as [d | e]; [ | discriminate].
  destruct (get d "status") as [s | e]; [ | discriminate].
  destruct (get d "completion_percentage") as [c | e]; [ | discriminate].
  destruct (get d "current_node") as [n | e]; [ | discriminate].
  intros [= <-]. exists s, c, n. auto.
Qed.

(** As soon as one member of [message.data] can be read the merge completes. *)
Lemma updater_defined message k v p :
  carried message k = Normal v ->
  exists s c n,
    carried message "status" = Normal s /\
    carried message "completion_percentage" = Normal c /\
    carried message "current_node" = Normal n /\
    status_update_updater message (Some p)
    = Normal (Some (spread_with p (or_else s (status p))
                                  (or_else c (completion_percentage p))
                                  (or_else n (current_node p)))).
Proof.
  intros H. apply carried_inv in H as (d & Hd & Hk).
  destruct (get_total d k "status" v Hk) as [s Hs].
  destruct (get_total d k "completion_percentage" v Hk) as [c Hc].
  destruct (get_total d k "current_node" v Hk) as [n Hn].
  exists s, c, n.
  unfold carried, status_update_updater, cbind.
  rewrite Hd, Hs, Hc, Hn. auto.
Qed.

Lemma or_else_idem a b : or_else a (or_else a b) = or_else a b.
Proof. unfold or_else. destruct (truthy a); reflexivity. Qed.

Lemma or_else_falsy a b : truthy (or_else a b) = false -> or_else a b = b.
Proof.
  unfold or_else. destruct (truthy a) eqn:Ha; [ | reflexivity].
  intros H. congruence.
Qed.

(** C7: applying the identical status update twice yields the same Project as
    applying it once. The merge is the function [status_update_updater] of the
    decoded frame and the Project held before, and the Project the page holds
    after a frame is [project_after] of the two, so delivering the same frame
    again changes nothing: stated for the updater (a merge that throws, throws
    again), for the message handler, and for the full replace of a reload. *)
Theorem status_update_merge_idempotent :
  (forall message prev,
      (once <- status_update_updater message prev ;;
       status_update_updater message once)
      = status_update_updater message prev) /\
  (forall JSON_parse event_data st,
      let once := ProjectDetail.onmessage JSON_parse event_data st in
      ProjectDetail.project (ProjectDetail.onmessage JSON_parse event_data once)
      = ProjectDetail.project once) /\
  (forall o st,
      let once := ProjectDetail.loadProject_resume o st in
      ProjectDetail.project (ProjectDetail.loadProject_resume o once)
      = ProjectDetail.project once).
Proof.
  assert (Hmerge : forall message prev,
             (once <- status_update_updater message prev ;;
              status_update_updater message once)
             = status_update_updater message prev).
  { intros message [p | ]; [ | reflexivity].
    destruct (status_update_updater message (Some p)) as [next | e] eqn:Hrun;
      [ | reflexivity].
    simpl. destruct (updater_inv _ _ _ Hrun) as (s & c & n & Hs & Hc & Hn & ->).
    destruct (updater_defined message _ _
                (spread_with p (or_else s (status p))
                   (or_else c (completion_percentage p))
                   (or_else n (current_node p))) Hs)
      as (s' & c' & n' & Hs' & Hc' & Hn' & ->).
    assert (s' = s) by congruence. assert (c' = c) by congruence.
    assert (n' = n) by congruence. subst.
    simpl. rewrite !or_else_idem. reflexivity. }
  split; [exact Hmerge | ].
  split; [ | intros [fresh | ] st; reflexivity].
  intros JSON_parse event_data st once. subst once.
  rewrite !onmessage_project.
  unfold project_after.
  destruct (JSON_parse event_data) as [message | e]; [ | reflexivity].
  destruct (get message "type") as [type | e]; [ | reflexivity].
  destruct (eq_str type "status_update"); [ | reflexivity].
  specialize (Hmerge message (ProjectDetail.project st)).
  destruct (status_update_updater message (ProjectDetail.project st))
    as [next | e] eqn:Hrun.
  - simpl in Hmerge. rewrite Hmerge. reflexivity.
  - rewrite Hrun. reflexivity.
Qed.

(** C1 (as the code has it): a completion percentage carried by a status
    update is applied whenever it is truthy, whatever the current value, also
    when it is lower; the current value is kept exactly when the carried value
    is absent or falsy. There is no generation and no regression check. *)
Theorem progress_applied_whenever_truthy message p c :
  carried message "completion_percentage" = Normal c ->
  exists merged,
    status_update_updater message (Some p) = Normal (Some merged) /\
    completion_percentage merged
    = (if truthy c then c else completion_percentage p).
Proof.
  intros Hc.
  destruct (updater_defined message _ _ p Hc) as (s & c' & n & _ & Hc' & _ & ->).
  assert (c' = c) by congruence. subst c'.
  eexists. split; [reflexivity | ]. reflexivity.
Qed.

Lemma progress_applied_whenever_truthy_witness :
  carried (progress_frame 10%float) "completion_percentage" = Normal (JNum 10%float) /\
  exists merged,
    status_update_updater (progress_frame 10%float)
      (Some (sample_job (JStr "running") (JNum 65%float) None))
    = Normal (Some merged) /\
    completion_percentage merged
    = (if truthy (JNum 10%float) then JNum 10%float
       else completion_percentage (sample_job (JStr "running") (JNum 65%float) None)).
Proof.
  split; [reflexivity | ].
  apply (progress_applied_whenever_truthy (progress_frame 10%float)
           (sample_job (JStr "running") (JNum 65%float) None) (JNum 10%float)).
  reflexivity.
Defined.

(** C1 (as the spec states it) fails: the Project is at 65, a status update
    carries 10, which is lower, and the merged Project holds 10 and so differs
    from the Project before the update. *)
Lemma lower_progress_is_not_rejected :
  let before := sample_job (JStr "running") (JNum 65%float) None in
  let update := progress_frame 10%float in
  carried update "completion_percentage" = Normal (JNum 10%float) /\
  PrimFloat.ltb 10%float 65%float = true /\
  status_update_updater update (Some before)
  = Normal (Some (sample_job (JStr "running") (JNum 10%float) None)) /\
  status_update_updater update (Some before) <> Normal (Some before).
Proof.
  repeat split; try reflexivity.
  vm_compute. intros H. discriminate H.
Qed.

(** C10: a member of a status update whose value is falsy is treated as
    absent: the merged Project keeps the current status, completion percentage
    or stage. Zero and the empty string are falsy, so a status update never
    sets the completion percentage to 0: a merged percentage that is falsy is
    the one held before. *)
Theorem falsy_members_keep_current message p merged :
  status_update_updater message (Some p) = Normal (Some merged) ->
  (forall v, carried message "status" = Normal v -> truthy v = false ->
             status merged = status p) /\
  (forall v, carried message "completion_percentage" = Normal v -> truthy v = false ->
             completion_percentage merged = completion_percentage p) /\
  (forall v, carried message "current_node" = Normal v -> truthy v = false ->
             current_node merged = current_node p) /\
  truthy (JNum 0%float) = false /\
  truthy (JStr EmptyString) = false /\
  (truthy (completion_percentage merged) = false ->
   completion_percentage merged = completion_percentage p) /\
  (completion_percentage merged = JNum 0%float ->
   completion_percentage p = JNum 0%float).
Proof.
  intros Hrun.
  destruct (updater_inv _ _ _ Hrun) as (s & c & n & Hs & Hc & Hn & [= ->]).
  simpl.
  assert (Hkeep : truthy (or_else c (completion_percentage p)) = false ->
                  or_else c (completion_percentage p) = completion_percentage p)
    by apply or_else_falsy.
  repeat split.
  - intros v Hv Hf. assert (v = s) by congruence. subst v.
    unfold or_else. rewrite Hf. reflexivity.
  - intros v Hv Hf. assert (v = c) by congruence. subst v.
    unfold or_else. rewrite Hf. reflexivity.
  - intros v Hv Hf. assert (v = n) by congruence. subst v.
    unfold or_else. rewrite Hf. reflexivity.
  - exact Hkeep.
  - intros H0. rewrite <- Hkeep; [exact H0 | ]. rewrite H0. reflexivity.
Qed.

Lemma falsy_members_keep_current_witness :
  let before := sample_job (JStr "running") (JNum 65%float) None in
  let merged := sample_job (JStr "completed") (JNum 65%float) None in
  status_update_updater zero_progress_frame (Some before) = Normal (Some merged) /\
  carried zero_progress_frame "completion_percentage" = Normal (JNum 0%float) /\
  completion_percentage merged = completion_percentage before.
Proof.
  intros before merged.
  assert (Hrun : status_update_updater zero_progress_frame (Some before)
                 = Normal (Some merged)) by reflexivity.
  split; [exact Hrun | ]. split; [reflexivity | ].
  destruct (falsy_members_keep_current zero_progress_frame before merged Hrun)
    as (_ & Hpct & _).
  apply (Hpct (JNum 0%float)); reflexivity.
Defined.

(** A frame whose three members are all falsy leaves the Project as it was. *)
Example all_falsy_frame_changes_nothing :
  let before := sample_job (JStr "running") (JNum 65%float) None in
  status_update_updater falsy_frame (Some before) = Normal (Some before).
Proof. reflexivity. Qed.

End Merge.

(** ** The detail page as a state machine *)

Section Machine.

Import ProjectDetail.

Variable JSON_parse : string -> Completion JsValue.

Lemma wired_frame st st' : same_frame st st' -> wired st -> wired st'.
Proof.
  intros Hf (Hid & Hopen). pose proof (id_of_frame _ _ Hf) as Hsame.
  destruct Hf as (_ & Hws & Hping & Hmounted).
  unfold wired. rewrite Hsame, Hws, Hping, Hmounted. auto.
Qed.

Lemma wired_mount id : wired (mount id).
Proof.
  unfold mount. eapply wired_frame; [apply loadProject_frame | ].
  unfold setup_websocket, wired.
  destruct (id_of _) eqn:Hid; simpl.
  - split.
    + right. unfold id_of in *. simpl in *. rewrite Hid. discriminate.
    + auto.
  - split; [auto | ]. intros [H | H]; discriminate.
Qed.

Lemma loadProject_resume_frame o st : same_frame st (loadProject_resume o st).
Proof. unfold loadProject_resume. destruct o; repeat split. Qed.

Lemma handleRunProject_frame st : same_frame st (handleRunProject st).
Proof. unfold handleRunProject. destruct (id_of st); repeat split. Qed.

Lemma handleRunProject_resume_frame o st :
  same_frame st (handleRunProject_resume o st).
Proof. unfold handleRunProject_resume. destruct o; repeat split. Qed.

Lemma press_start_frame st : same_frame st (press_start st).
Proof.
  unfold press_start. destruct (start_button_enabled st).
  - apply handleRunProject_frame.
  - apply same_frame_refl.
Qed.

Lemma ping_callback_frame st : same_frame st (ping_callback st).
Proof. unfold ping_callback. destruct (ws st) as [[ | | | ] | ]; repeat split. Qed.

Lemma wired_step st ev : wired st -> wired (step JSON_parse st ev).
Proof.
  intros Hw. destruct ev; simpl.
  - destruct (ws st) as [[ | | | ] | ] eqn:Hws; try exact Hw.
    destruct Hw as (Hid & Hopen). split; simpl.
    + destruct Hid as [Hnone | Hid]; [congruence | right; exact Hid].
    + intros _. apply Hopen. auto.
  - destruct (ws st) as [[ | | | ] | ]; try exact Hw.
    eapply wired_frame; [apply onmessage_frame | exact Hw].
  - destruct (ws st); [ | exact Hw].
    eapply wired_frame; [ | exact Hw]. repeat split.
  - destruct (ws st) as [[ | | | ] | ] eqn:Hws; try exact Hw.
    all: destruct Hw as (Hid & Hopen); split; simpl;
      [ destruct Hid as [Hnone | Hid]; [congruence | right; exact Hid]
      | intros [H | H]; discriminate ].
  - destruct (pingInterval st); [ | exact Hw].
    eapply wired_frame; [apply ping_callback_frame | exact Hw].
  - destruct (mounted st); [ | exact Hw].
    eapply wired_frame; [apply loadProject_resume_frame | exact Hw].
  - destruct (mounted st); [ | exact Hw].
    eapply wired_frame; [apply press_start_frame | exact Hw].
  - destruct (mounted st); [ | exact Hw].
    eapply wired_frame; [apply handleRunProject_resume_frame | exact Hw].
  - destruct (mounted st) eqn:Hm; [ | exact Hw].
    destruct Hw as (Hid & Hopen).
    assert (Hsame : id_of (set_mounted false (cleanup st)) = id_of st)
      by (unfold cleanup, ws_close; simpl;
          destruct (ws st) as [[ | | | ] | ]; reflexivity).
    split.
    + rewrite Hsame. destruct Hid as [Hnone | Hid]; [ | right; exact Hid].
      left. unfold cleanup, ws_close. simpl. rewrite Hnone. exact Hnone.
    + unfold cleanup, ws_close. simpl.
      destruct (ws st) as [[ | | | ] | ] eqn:Hws; simpl; rewrite ?Hws;
        intros [H | H]; discriminate.
Qed.

(** Every state the page reaches from its mount is [wired]. *)
Lemma wired_run evs : forall st, wired st -> wired (run JSON_parse st evs).
Proof.
  induction evs as [ | ev evs IH]; intros st Hw; simpl.
  - exact Hw.
  - apply IH. apply wired_step. exact Hw.
Qed.

Lemma wired_reachable id evs : wired (run JSON_parse (mount id) evs).
Proof. apply wired_run, wired_mount. Qed.

End Machine.

(** ** Frames on the push channel *)

Section Frames.

Import ProjectDetail.

Variable JSON_parse : string -> Completion JsValue.

Lemma fetches_emit e st :
  fetches (emit e st)
  = fetches st + (if is_get e then 1 else 0).
Proof.
  unfold fetches. simpl. rewrite filter_app, length_app.
  destruct e; reflexivity.
Qed.

Lemma sent_emit e st :
  sent (emit e st)
  = (sent st ++ match e with WsSend frame => [frame] | _ => [] end)%list.
Proof.
  unfold sent. simpl. rewrite flat_map_app. simpl.
  destruct e; reflexivity.
Qed.

(** C9: a frame whose payload [JSON.parse] rejects is dropped and logged: the
    handler catches the exception, writes one line to the console and changes
    nothing else, so the Project, the socket and the ping interval are as
    before and no exception is left unhandled. *)
Theorem unparseable_frame_is_dropped event_data e st :
  JSON_parse event_data = Throw e ->
  let st' := onmessage JSON_parse event_data st in
  st' = emit (ConsoleError "Error parsing WebSocket message:") st /\
  project st' = project st /\
  unhandled st' = unhandled st /\
  ws st' = ws st /\
  pingInterval st' = pingInterval st.
Proof.
  intros Hparse. unfold onmessage, try_catch, onmessage_body, bind, eval.
  rewrite Hparse. simpl. repeat split.
Qed.

(** What the handler does with a [completion] frame. *)
Lemma onmessage_completion event_data message st :
  JSON_parse event_data = Normal message ->
  get message "type" = Normal (JStr "completion") ->
  onmessage JSON_parse event_data st = loadProject (emit completion_toast st).
Proof.
  intros Hparse Hty.
  unfold onmessage, try_catch, onmessage_body, dispatch, bind, eval.
  rewrite Hparse, Hty. reflexivity.
Qed.

(** C5: a [completion] frame sets no field of the Project. The handler shows a
    toast and issues exactly one [getProject] request; when that request
    succeeds its answer replaces the held Project whole, status and artifacts
    included. Stated for every state the page reaches from its mount. *)
Theorem completion_frame_defers_to_one_refetch id evs event_data message :
  let st := run JSON_parse (mount id) evs in
  ws st = Some OPEN ->
  JSON_parse event_data = Normal message ->
  get message "type" = Normal (JStr "completion") ->
  let st' := step JSON_parse st (WsMessage event_data) in
  project st' = project st /\
  fetches st' = S (fetches st) /\
  unhandled st' = unhandled st /\
  forall fresh,
    let st'' := step JSON_parse st' (GetProjectSettled (HttpOk fresh)) in
    project st'' = Some fresh /\
    held_artifacts st'' = artifacts fresh /\
    isRunning st'' = eq_str (status fresh) "running".
Proof.
  intros st Hopen Hparse Hty st'.
  destruct (wired_reachable JSON_parse id evs) as (Hid & Hlive).
  fold st in Hid, Hlive.
  destruct Hid as [Hnone | Hid]; [congruence | ].
  destruct (Hlive (or_intror Hopen)) as (Hmounted & _).
  assert (Hst' : st' = loadProject (emit completion_toast st)).
  { unfold st'. simpl. rewrite Hopen. eapply onmessage_completion; eassumption. }
  assert (Hid' : id_of (emit completion_toast st) = id_of st) by reflexivity.
  destruct (id_of st) as [pid | ] eqn:Hpid; [ | congruence].
  unfold loadProject in Hst'. rewrite Hid' in Hst'.
  rewrite Hst'. repeat split.
  - rewrite fetches_emit. unfold fetches. simpl.
    rewrite filter_app, length_app. simpl. lia.
  - simpl. rewrite Hmounted. reflexivity.
  - unfold held_artifacts. simpl. rewrite Hmounted. reflexivity.
  - simpl. rewrite Hmounted. reflexivity.
Qed.

End Frames.

Lemma unparseable_frame_is_dropped_witness :
  sample_parse "not json" = Throw SyntaxError /\
  ProjectDetail.onmessage sample_parse "not json"
    (watching (sample_job (JStr "running") (JNum 65%float) None))
  = ProjectDetail.emit
      (ConsoleError "Error parsing WebSocket message:")
      (watching (sample_job (JStr "running") (JNum 65%float) None)).
Proof.
  split; [reflexivity | ].
  apply (unparseable_frame_is_dropped sample_parse "not json" SyntaxError
           (watching (sample_job (JStr "running") (JNum 65%float) None))).
  reflexivity.
Defined.

Lemma completion_frame_defers_to_one_refetch_witness :
  let st := ProjectDetail.run sample_parse (ProjectDetail.mount (Some "p1"))
              [ProjectDetail.WsOpened] in
  let st' := ProjectDetail.step sample_parse st
               (ProjectDetail.WsMessage completion_text) in
  ProjectDetail.ws st = Some ProjectDetail.OPEN /\
  sample_parse completion_text = Normal completion_frame /\
  get completion_frame "type" = Normal (JStr "completion") /\
  ProjectDetail.project st' = ProjectDetail.project st /\
  fetches st' = S (fetches st).
Proof.
  intros st st'.
  assert (Hopen : ProjectDetail.ws st = Some ProjectDetail.OPEN) by reflexivity.
  assert (Hparse : sample_parse completion_text = Normal completion_frame)
    by reflexivity.
  assert (Hty : get completion_frame "type" = Normal (JStr "completion"))
    by reflexivity.
  repeat (split; [assumption | ]).
  destruct (completion_frame_defers_to_one_refetch sample_parse (Some "p1")
              [ProjectDetail.WsOpened] completion_text completion_frame
              Hopen Hparse Hty) as (Hproject & Hfetch & _).
  split; [exact Hproject | exact Hfetch].
Defined.

(** ** Keep-alive *)

Section KeepAlive.

Import ProjectDetail.

Variable JSON_parse : string -> Completion JsValue.

Lemma ping_tick_open st :
  ws st = Some OPEN -> pingInterval st = true ->
  step JSON_parse st PingTick = emit (WsSend ping_frame) st.
Proof. intros Hopen Hping. simpl. unfold ping_callback. rewrite Hping, Hopen. reflexivity. Qed.

(** However many intervals pass in silence, each one sends a ping and the
    socket stays open. *)
Lemma silent_ticks n : forall st,
  ws st = Some OPEN -> pingInterval st = true ->
  ws (run JSON_parse st (repeat PingTick n)) = Some OPEN /\
  pingInterval (run JSON_parse st (repeat PingTick n)) = true /\
  sent (run JSON_parse st (repeat PingTick n))
  = (sent st ++ repeat ping_frame n)%list.
Proof.
  induction n as [ | n IH]; intros st Hopen Hping.
  - simpl. rewrite app_nil_r. auto.
  - change (run JSON_parse st (repeat PingTick (S n)))
      with (run JSON_parse (step JSON_parse st PingTick) (repeat PingTick n)).
    rewrite ping_tick_open by assumption.
    destruct (IH (emit (WsSend ping_frame) st) Hopen Hping) as (Hws & Hp & Hsent).
    split; [exact Hws | ]. split; [exact Hp | ].
    rewrite Hsent, sent_emit, <- app_assoc. reflexivity.
Qed.

(** An open socket leaves the open state only when the browser reports it
    closed or the component unmounts. *)
Lemma open_until_closed_or_unmounted st ev :
  ws st = Some OPEN -> ws (step JSON_parse st ev) <> Some OPEN ->
  ev = WsClosed \/ ev = Unmount.
Proof.
  intros Hopen Hleft. destruct ev; auto; exfalso; apply Hleft; simpl.
  - rewrite Hopen. exact Hopen.
  - rewrite Hopen. destruct (onmessage_frame JSON_parse event_data st) as (_ & Hws & _).
    congruence.
  - rewrite Hopen. exact Hopen.
  - destruct (pingInterval st); [ | exact Hopen].
    destruct (ping_callback_frame st) as (_ & Hws & _). congruence.
  - destruct (mounted st); [ | exact Hopen].
    destruct (loadProject_resume_frame o st) as (_ & Hws & _). congruence.
  - destruct (mounted st); [ | exact Hopen].
    destruct (press_start_frame st) as (_ & Hws & _). congruence.
  - destruct (mounted st); [ | exact Hopen].
    destruct (handleRunProject_resume_frame o st) as (_ & Hws & _). congruence.
Qed.

(** C8 (as the code has it): while the socket is open the 30000 ms interval
    sends one ping each time it fires. Nothing measures how long the channel
    has been silent: after any number of intervals without traffic the socket
    is still open, and it leaves the open state only when the browser reports
    it closed or the component unmounts. Stated for every state the page
    reaches from its mount. *)
Theorem ping_every_interval_and_no_staleness_check id evs :
  let st := run JSON_parse (mount id) evs in
  ws st = Some OPEN ->
  ping_interval_ms = 30000%Z /\
  sent (step JSON_parse st PingTick) = (sent st ++ [ping_frame])%list /\
  (forall n, let st' := run JSON_parse st (repeat PingTick n) in
             ws st' = Some OPEN /\ sent st' = (sent st ++ repeat ping_frame n)%list) /\
  (forall ev, ws (step JSON_parse st ev) <> Some OPEN -> ev = WsClosed \/ ev = Unmount).
Proof.
  intros st Hopen.
  destruct (wired_reachable JSON_parse id evs) as (_ & Hlive). fold st in Hlive.
  destruct (Hlive (or_intror Hopen)) as (_ & Hping).
  split; [reflexivity | ]. split; [ | split].
  - rewrite ping_tick_open by assumption. apply sent_emit.
  - intros n. destruct (silent_ticks n st Hopen Hping) as (Hws & _ & Hsent). auto.
  - intros ev. apply open_until_closed_or_unmounted. exact Hopen.
Qed.

End KeepAlive.

Lemma ping_every_interval_and_no_staleness_check_witness :
  let st := ProjectDetail.run sample_parse (ProjectDetail.mount (Some "p1"))
              [ProjectDetail.WsOpened] in
  ProjectDetail.ws st = Some ProjectDetail.OPEN /\
  sent (ProjectDetail.step sample_parse st ProjectDetail.PingTick)
  = (sent st ++ [ProjectDetail.ping_frame])%list.
Proof.
  intros st.
  assert (Hopen : ProjectDetail.ws st = Some ProjectDetail.OPEN) by reflexivity.
  split; [exact Hopen | ].
  destruct (ping_every_interval_and_no_staleness_check sample_parse (Some "p1")
              [ProjectDetail.WsOpened] Hopen) as (_ & Hsent & _).
  exact Hsent.
Defined.

(** C8 (as the spec states it) fails: three intervals, 90000 ms, pass without
    any traffic, which is longer than twice the interval, and the socket is
    still open; all the client did was send three pings. *)
Lemma silent_socket_is_never_closed :
  let st := ProjectDetail.run sample_parse (ProjectDetail.mount (Some "p1"))
              [ProjectDetail.WsOpened] in
  let silence := [ProjectDetail.PingTick; ProjectDetail.PingTick; ProjectDetail.PingTick] in
  let st' := ProjectDetail.run sample_parse st silence in
  ProjectDetail.ws st = Some ProjectDetail.OPEN /\
  (Z.of_nat (length silence) * ProjectDetail.ping_interval_ms
   > 2 * ProjectDetail.ping_interval_ms)%Z /\
  ProjectDetail.ws st' = Some ProjectDetail.OPEN /\
  ProjectDetail.ws st' <> Some ProjectDetail.CLOSED /\
  sent st' = [ProjectDetail.ping_frame; ProjectDetail.ping_frame; ProjectDetail.ping_frame].
Proof.
  repeat split; try reflexivity. discriminate.
Qed.

(** ** Starting a job *)

Section Start.

Import ProjectDetail.

Variable JSON_parse : string -> Completion JsValue.

Lemma eq_str_true v lit : eq_str v lit = true <-> v = JStr lit.
Proof.
  destruct v; simpl; split; intros H; try discriminate.
  - apply String.eqb_eq in H. congruence.
  - injection H as ->. apply String.eqb_refl.
Qed.

Lemma includes_true lits v : includes lits v = true <-> In v (map JStr lits).
Proof.
  unfold includes. rewrite existsb_exists, in_map_iff. split.
  - intros (lit & Hin & Heq). apply eq_str_true in Heq. eauto.
  - intros (lit & Heq & Hin). exists lit. split; [exact Hin | ].
    apply eq_str_true. auto.
Qed.

Lemma handleRunProject_project st : same_project st (handleRunProject st).
Proof. unfold handleRunProject, same_project. destruct (id_of st); reflexivity. Qed.

Lemma handleRunProject_resume_project o st :
  same_project st (handleRunProject_resume o st).
Proof. destruct o; reflexivity. Qed.

Lemma press_start_project st : same_project st (press_start st).
Proof.
  unfold press_start. destruct (start_button_enabled st).
  - apply handleRunProject_project.
  - reflexivity.
Qed.

Lemma project_after_status_update message prev :
  get message "type" = Normal (JStr "status_update") ->
  project_after (Normal message) prev
  = match status_update_updater message prev with
    | Normal next => next
    | Throw _ => prev
    end.
Proof. unfold project_after. intros ->. reflexivity. Qed.

(** A frame never touches the artifacts of the held Project. *)
Lemma onmessage_artifacts event_data st :
  held_artifacts (onmessage JSON_parse event_data st) = held_artifacts st.
Proof.
  unfold held_artifacts. rewrite onmessage_project. unfold project_after.
  destruct (JSON_parse event_data) as [message | e]; [ | reflexivity].
  destruct (get message "type") as [type | e]; [ | reflexivity].
  destruct (eq_str type "status_update"); [ | reflexivity].
  destruct (project st) as [p | ]; [ | reflexivity].
  destruct (status_update_updater message (Some p)) as [next | e] eqn:Hrun;
    [ | reflexivity].
  destruct (updater_inv _ _ _ Hrun) as (s & c & n & _ & _ & _ & ->).
  reflexivity.
Qed.

(** C2 (as the code has it): starting a job changes no field of the held
    Project: [handleRunProject] issues the request and, when it settles, sets
    [isRunning] and shows a toast. When the status update with status
    [running] arrives, the merge sets the status and keeps the artifacts and
    the errors, and keeps the completion percentage unless the frame carries
    a truthy one. There is no generation. The artifacts of the held Project
    change on no event other than a successful reload. *)
Theorem restart_resets_no_field st p o event_data message :
  project st = Some p ->
  JSON_parse event_data = Normal message ->
  get message "type" = Normal (JStr "status_update") ->
  carried message "status" = Normal (JStr "running") ->
  project (handleRunProject st) = Some p /\
  project (handleRunProject_resume o st) = Some p /\
  (exists merged,
      project (onmessage JSON_parse event_data st) = Some merged /\
      status merged = JStr "running" /\
      artifacts merged = artifacts p /\
      errors merged = errors p /\
      forall c, carried message "completion_percentage" = Normal c ->
                completion_percentage merged
                = (if truthy c then c else completion_percentage p)) /\
  (forall ev, (forall fresh, ev <> GetProjectSettled (HttpOk fresh)) ->
              held_artifacts (step JSON_parse st ev) = held_artifacts st).
Proof.
  intros Hp Hparse Hty Hstatus.
  split; [rewrite handleRunProject_project; exact Hp | ].
  split; [rewrite handleRunProject_resume_project; exact Hp | ].
  split.
  - rewrite onmessage_project, Hparse, Hp, (project_after_status_update _ _ Hty).
    destruct (updater_defined message _ _ p Hstatus)
      as (s & c & n & Hs & Hc & Hn & ->).
    assert (s = JStr "running") by congruence. subst s.
    eexists. split; [reflexivity | ]. simpl. repeat split.
    intros c' Hc'. assert (c' = c) by congruence. subst c'. reflexivity.
  - intros ev Hev. destruct ev; simpl.
    + destruct (ws st) as [[ | | | ] | ]; reflexivity.
    + destruct (ws st) as [[ | | | ] | ]; try reflexivity. apply onmessage_artifacts.
    + destruct (ws st); reflexivity.
    + destruct (ws st) as [[ | | | ] | ]; reflexivity.
    + destruct (pingInterval st); [ | reflexivity].
      unfold ping_callback. destruct (ws st) as [[ | | | ] | ]; reflexivity.
    + destruct (mounted st); [ | reflexivity].
      destruct o0 as [fresh | ]; [ | reflexivity].
      exfalso. apply (Hev fresh). reflexivity.
    + destruct (mounted st); [ | reflexivity].
      unfold held_artifacts. rewrite press_start_project. reflexivity.
    + destruct (mounted st); [ | reflexivity].
      unfold held_artifacts. rewrite handleRunProject_resume_project. reflexivity.
    + destruct (mounted st); [ | reflexivity].
      unfold cleanup, ws_close. simpl.
      destruct (ws st) as [[ | | | ] | ]; reflexivity.
Qed.

(** C3 (as the code has it): on a page that shows a project, the start button
    is rendered exactly when the status is one of [created], [failed],
    [cancelled], [completed]. Where it is not rendered, pressing start is not
    possible and does nothing. A start request that fails is logged and
    answered with the "Start failed" toast; the Project stays as it was. No
    conflict error exists. *)
Theorem start_offered_for_four_statuses st p :
  project st = Some p ->
  error_shown st = false ->
  (start_button_rendered st = true <->
   In (status p) [JStr "created"; JStr "failed"; JStr "cancelled"; JStr "completed"]) /\
  (start_button_rendered st = false -> press_start st = st) /\
  handleRunProject_resume HttpFail st
  = emit start_failed_toast
      (emit (ConsoleError "Failed to run project:") (emit api_error_logged st)) /\
  project (handleRunProject_resume HttpFail st) = Some p.
Proof.
  intros Hp Herr. repeat split.
  - unfold start_button_rendered. rewrite Herr, Hp. unfold canRun.
    intros H. apply includes_true in H. exact H.
  - unfold start_button_rendered. rewrite Herr, Hp. unfold canRun.
    intros H. apply includes_true. exact H.
  - unfold press_start, start_button_enabled. intros ->. reflexivity.
  - exact Hp.
Qed.

End Start.

Lemma restart_resets_no_field_witness :
  let before := sample_job (JStr "failed") (JNum 40%float) (Some sample_artifacts) in
  ProjectDetail.project (watching before) = Some before /\
  sample_parse running_text = Normal running_frame /\
  get running_frame "type" = Normal (JStr "status_update") /\
  carried running_frame "status" = Normal (JStr "running") /\
  ProjectDetail.project
    (ProjectDetail.handleRunProject_resume (HttpOk tt) (watching before))
  = Some before /\
  held_artifacts
    (ProjectDetail.step sample_parse (watching before)
       (ProjectDetail.WsMessage running_text))
  = Some sample_artifacts.
Proof.
  intros before.
  assert (Hp : ProjectDetail.project (watching before) = Some before) by reflexivity.
  assert (Hparse : sample_parse running_text = Normal running_frame) by reflexivity.
  assert (Hty : get running_frame "type" = Normal (JStr "status_update"))
    by reflexivity.
  assert (Hstatus : carried running_frame "status" = Normal (JStr "running"))
    by reflexivity.
  do 4 (split; [assumption | ]).
  destruct (restart_resets_no_field sample_parse (watching before) before
              (HttpOk tt) running_text running_frame Hp Hparse Hty Hstatus)
    as (_ & Hresume & _ & Harts).
  split; [exact Hresume | ].
  apply (Harts (ProjectDetail.WsMessage running_text)).
  intros fresh H. discriminate H.
Defined.

(** C2 (as the spec states it) fails: a failed job at 40 percent with
    artifacts is started again and the server reports it running. The held
    Project is then running, still at 40 percent and still carries the
    artifacts of the previous run. *)
Lemma restart_keeps_percentage_and_artifacts :
  let before := sample_job (JStr "failed") (JNum 40%float) (Some sample_artifacts) in
  let st := ProjectDetail.run sample_parse (watching before)
              [ProjectDetail.PressStart;
               ProjectDetail.RunSettled (HttpOk tt);
               ProjectDetail.WsMessage running_text] in
  ProjectDetail.canRun before = true /\
  ProjectDetail.project st
  = Some (sample_job (JStr "running") (JNum 40%float) (Some sample_artifacts)) /\
  ~ (exists after, ProjectDetail.project st = Some after /\
                   status after = JStr "running" /\
                   completion_percentage after = JNum 0%float /\
                   artifacts after = None).
Proof.
  intros before st.
  split; [reflexivity | ]. split; [reflexivity | ].
  intros (after & Hafter & _ & _ & Harts).
  vm_compute in Hafter. injection Hafter as <-. discriminate Harts.
Qed.

Lemma start_offered_for_four_statuses_witness :
  let p := sample_job (JStr "failed") (JNum 40%float) None in
  ProjectDetail.project (watching p) = Some p /\
  ProjectDetail.error_shown (watching p) = false /\
  ProjectDetail.start_button_rendered (watching p) = true.
Proof.
  intros p.
  assert (Hp : ProjectDetail.project (watching p) = Some p) by reflexivity.
  assert (Herr : ProjectDetail.error_shown (watching p) = false) by reflexivity.
  repeat (split; [assumption | ]).
  destruct (start_offered_for_four_statuses (watching p) p Hp Herr) as (Hiff & _).
  apply Hiff. simpl. auto.
Defined.

(** C3 (as the spec states it) fails: for a partially completed job the start
    button is not rendered and pressing start issues no request, while the
    download button is offered. *)
Lemma partially_completed_cannot_start :
  let p := sample_job (JStr "partially_completed") (JNum 80%float)
             (Some sample_artifacts) in
  status p = JStr "partially_completed" /\
  ProjectDetail.canRun p = false /\
  ProjectDetail.start_button_rendered (watching p) = false /\
  ProjectDetail.press_start (watching p) = watching p /\
  ProjectDetail.canDownload p = true.
Proof. repeat split. Qed.

(** ** The project list poll *)

Section Poll.

Import Dashboard.

Lemma issued_fetch ctx i :
  issued {| context := ProjectProvider.fetchProjects ctx; interval := i |}
  = S (issued {| context := ctx; interval := i |}).
Proof.
  unfold issued. simpl. rewrite filter_app, length_app. simpl. lia.
Qed.

Lemma tick_when_active st :
  interval st = true ->
  step st Tick = {| context := ProjectProvider.fetchProjects (context st);
                    interval := true |}.
Proof. intros H. simpl. rewrite H. unfold interval_callback. rewrite H. reflexivity. Qed.

(** Ticks that find earlier requests outstanding add to them. *)
Lemma ticks_pile_up n : forall st,
  interval st = true ->
  interval (run st (repeat Tick n)) = true /\
  ProjectProvider.outstanding (context (run st (repeat Tick n)))
  = ProjectProvider.outstanding (context st) + n /\
  issued (run st (repeat Tick n)) = issued st + n.
Proof.
  induction n as [ | n IH]; intros st Hact.
  - simpl. repeat split; auto.
  - change (run st (repeat Tick (S n))) with (run (step st Tick) (repeat Tick n)).
    rewrite (tick_when_active st Hact).
    destruct (IH {| context := ProjectProvider.fetchProjects (context st);
                    interval := true |} eq_refl) as (Hi & Hout & Hiss).
    split; [exact Hi | ]. rewrite Hout, Hiss, issued_fetch. simpl.
    destruct st as [ctx i]. simpl in *. subst i. split; lia.
Qed.

(** C4 (as the code has it): the interval callback calls [fetchProjects]
    without looking at earlier requests, so every tick issues a request and
    the number outstanding grows by one; [n] ticks during which nothing
    settles leave [n] more requests in flight. *)
Theorem every_tick_issues_a_fetch st :
  interval st = true ->
  issued (step st Tick) = S (issued st) /\
  ProjectProvider.outstanding (context (step st Tick))
  = S (ProjectProvider.outstanding (context st)) /\
  forall n,
    ProjectProvider.outstanding (context (run st (repeat Tick n)))
    = ProjectProvider.outstanding (context st) + n.
Proof.
  intros Hact. rewrite (tick_when_active st Hact). repeat split.
  - rewrite issued_fetch. destruct st as [ctx i]. simpl in *. subst i. reflexivity.
  - intros n. apply ticks_pile_up. exact Hact.
Qed.

Lemma polling_survives evs : forall st,
  interval st = true -> ~ In Unmount evs -> interval (run st evs) = true.
Proof.
  induction evs as [ | ev evs IH]; intros st Hact Hno; simpl.
  - exact Hact.
  - apply IH.
    + destruct ev; simpl.
      * rewrite Hact. exact Hact.
      * exact Hact.
      * exfalso. apply Hno. left. reflexivity.
    + intros Hin. apply Hno. right. exact Hin.
Qed.

(** C6: when a request of [fetchProjects] fails, the failure is stored in
    [error] and logged, the list of projects held before is kept as it is and
    [loading] ends. The interval stays registered through any number of
    failures and other events short of unmounting, so the next tick issues
    the next request, which also clears the stored error. *)
Theorem failed_fetch_keeps_snapshot_and_polling st :
  interval st = true ->
  let st' := step st (Settled HttpFail) in
  ProjectProvider.projects (context st') = ProjectProvider.projects (context st) /\
  ProjectProvider.error (context st') = Some "Failed to fetch projects" /\
  ProjectProvider.loading (context st') = false /\
  interval st' = true /\
  issued st' = issued st /\
  issued (step st' Tick) = S (issued st') /\
  ProjectProvider.error (context (step st' Tick)) = None /\
  forall evs, ~ In Unmount evs -> interval (run st' evs) = true.
Proof.
  intros Hact st'.
  assert (Hact' : interval st' = true) by exact Hact.
  repeat split; auto.
  - unfold issued, st'. simpl. rewrite filter_app, length_app. simpl. lia.
  - rewrite (tick_when_active st' Hact'). rewrite issued_fetch.
    unfold st'. simpl. rewrite Hact. reflexivity.
  - rewrite (tick_when_active st' Hact'). reflexivity.
  - intros evs Hno. apply polling_survives; assumption.
Qed.

End Poll.

Lemma every_tick_issues_a_fetch_witness :
  Dashboard.interval idle_dashboard = true /\
  Dashboard.issued (Dashboard.step idle_dashboard Dashboard.Tick)
  = S (Dashboard.issued idle_dashboard).
Proof.
  assert (Hact : Dashboard.interval idle_dashboard = true) by reflexivity.
  split; [exact Hact | ].
  destruct (every_tick_issues_a_fetch idle_dashboard Hact) as (Hissued & _).
  exact Hissued.
Defined.

(** C4 (as the spec states it) fails: the first tick issues a request; at the
    second tick that request is still outstanding, and the tick issues another
    one, so two requests are in flight. *)
Lemma overlapping_fetches :
  let st1 := Dashboard.step idle_dashboard Dashboard.Tick in
  let st2 := Dashboard.step st1 Dashboard.Tick in
  ProjectProvider.outstanding (Dashboard.context st1) = 1 /\
  Dashboard.issued st2 <> Dashboard.issued st1 /\
  Dashboard.issued st2 = 2 /\
  ProjectProvider.outstanding (Dashboard.context st2) = 2.
Proof.
  repeat split. discriminate.
Qed.

Lemma failed_fetch_keeps_snapshot_and_polling_witness :
  let st := Dashboard.step idle_dashboard Dashboard.Tick in
  let st' := Dashboard.step st (Dashboard.Settled HttpFail) in
  Dashboard.interval st = true /\
  ProjectProvider.projects (Dashboard.context st')
  = [sample_job (JStr "running") (JNum 65%float) None] /\
  ProjectProvider.error (Dashboard.context st') = Some "Failed to fetch projects".
Proof.
  intros st st'.
  assert (Hact : Dashboard.interval st = true) by reflexivity.
  split; [exact Hact | ].
  destruct (failed_fetch_keeps_snapshot_and_polling st Hact) as (Hprojects & Herror & _).
  split; [exact Hprojects | exact Herror].
Defined.

(** * Properties of the remaining code *)

(** ** More frames *)

Section MoreFrames.

Import ProjectDetail.

Variable JSON_parse : string -> Completion JsValue.

Lemma onmessage_parsed event_data message st :
  JSON_parse event_data = Normal message ->
  onmessage JSON_parse event_data st
  = try_catch (dispatch message) (fun _ => parse_error_logged) st.
Proof.
  intros Hparse. unfold onmessage, try_catch, onmessage_body, bind, eval.
  rewrite Hparse. reflexivity.
Qed.

(** X1: a decoded frame whose [type] is none of [status_update], [error] and
    [completion] is ignored: the state after the handler is the state before
    it, nothing is logged and nothing is requested. This covers the server's
    [pong], unknown types, and payloads that are numbers, strings, booleans
    or arrays, whose [type] is [undefined]. *)
Theorem other_frames_are_ignored event_data message type st :
  JSON_parse event_data = Normal message ->
  get message "type" = Normal type ->
  eq_str type "status_update" = false ->
  eq_str type "error" = false ->
  eq_str type "completion" = false ->
  onmessage JSON_parse event_data st = st.
Proof.
  intros Hparse Hty H1 H2 H3.
  rewrite (onmessage_parsed _ _ _ Hparse).
  unfold try_catch, dispatch, bind, eval. rewrite Hty, H1, H2, H3. reflexivity.
Qed.

(** X2: the handler's [catch] does not tell a parse failure from any other
    exception of the [try] block. A payload that decodes to [null], an [error]
    frame without [data], and a [status_update] frame without [data] that
    arrives while no Project is held all end in the one console line
    "Error parsing WebSocket message:" and change nothing else. *)
Theorem handler_faults_are_logged_as_parse_errors event_data message st :
  JSON_parse event_data = Normal message ->
  message = JNull \/
  (get message "type" = Normal (JStr "error") /\
   get message "data" = Normal JUndefined) \/
  (get message "type" = Normal (JStr "status_update") /\
   get message "data" = Normal JUndefined /\ project st = None) ->
  onmessage JSON_parse event_data st = parse_error_logged st.
Proof.
  intros Hparse Hcase. rewrite (onmessage_parsed _ _ _ Hparse).
  destruct Hcase as [-> | [(Hty & Hdata) | (Hty & Hdata & Hnone)]].
  - reflexivity.
  - unfold try_catch, dispatch, on_error, bind, eval. rewrite Hty. simpl.
    rewrite Hdata. reflexivity.
  - unfold try_catch, dispatch, on_status_update, update_running_state,
      bind, eval, act. rewrite Hty. simpl. rewrite Hdata. simpl.
    unfold setProject_with. rewrite Hnone. simpl.
    destruct st; simpl in *; subst; reflexivity.
Qed.



Lemma setProject_with_flags updater st :
  let st' := setProject_with updater st in
  isRunning st' = isRunning st /\ loading st' = loading st /\
  error st' = error st /\ effects st' = effects st /\ id_of st' = id_of st.
Proof.
  unfold setProject_with. destruct (updater (project st)); repeat split.
Qed.

Lemma update_running_state_run message s st :
  carried message "status" = Normal s ->
  update_running_state message st
  = ((if eq_str s "running" then setIsRunning true st
      else if includes ["completed"; "failed"; "cancelled"] s
           then loadProject (setIsRunning false st)
           else st),
     Normal tt).
Proof.
  intros Hs. apply carried_inv in Hs as (d & Hd & Hs).
  unfold update_running_state, bind, eval, act, ret.
  rewrite Hd, Hs.
  destruct (eq_str s "running"); [reflexivity | ].
  destruct (includes ["completed"; "failed"; "cancelled"] s); reflexivity.
Qed.

(** What the handler does with a [status_update] frame whose status can be
    read. *)
Lemma onmessage_status_update event_data message s st :
  JSON_parse event_data = Normal message ->
  get message "type" = Normal (JStr "status_update") ->
  carried message "status" = Normal s ->
  onmessage JSON_parse event_data st
  = let st1 := setProject_with (status_update_updater message) st in
    if eq_str s "running" then setIsRunning true st1
    else if includes ["completed"; "failed"; "cancelled"] s
         then loadProject (setIsRunning false st1)
         else st1.
Proof.
  intros Hparse Hty Hs. rewrite (onmessage_parsed _ _ _ Hparse).
  unfold try_catch, dispatch, bind, eval. rewrite Hty.
  change (eq_str (JStr "status_update") "status_update") with true. cbv iota.
  unfold on_status_update, bind, act.
  rewrite (update_running_state_run _ _ _ Hs). reflexivity.
Qed.

(** X5: the status a [status_update] frame carries drives the running flag
    and the reload. [running] sets the flag; [completed], [failed] and
    [cancelled] clear it and issue exactly one reload; every other status,
    [partially_completed] among them, leaves the flag as it is and requests
    nothing. *)
Theorem status_update_drives_running_flag_and_reload event_data message s id st :
  JSON_parse event_data = Normal message ->
  get message "type" = Normal (JStr "status_update") ->
  carried message "status" = Normal s ->
  id_of st = Some id ->
  let st' := onmessage JSON_parse event_data st in
  let terminal := negb (eq_str s "running")
                  && includes ["completed"; "failed"; "cancelled"] s in
  isRunning st'
  = (if eq_str s "running" then true
     else if terminal then false else isRunning st) /\
  fetches st' = fetches st + (if terminal then 1 else 0) /\
  loading st' = (if terminal then true else loading st) /\
  includes ["completed"; "failed"; "cancelled"] (JStr "partially_completed") = false.
Proof.
  intros Hparse Hty Hs Hid st' terminal. unfold st', terminal.
  rewrite (onmessage_status_update _ _ _ _ Hparse Hty Hs).
  destruct (setProject_with_flags (status_update_updater message) st)
    as (Hrun & Hload & _ & Heff & Hid').
  assert (Hfetch : fetches (setProject_with (status_update_updater message) st)
                   = fetches st) by (unfold fetches; rewrite Heff; reflexivity).
  cbv zeta.
  destruct (eq_str s "running").
  - repeat split; auto. change (fetches (setIsRunning true ?x)) with (fetches x).
    rewrite Hfetch. simpl. lia.
  - destruct (includes ["completed"; "failed"; "cancelled"] s).
    + unfold loadProject.
      replace (id_of (setIsRunning false
                        (setProject_with (status_update_updater message) st)))
        with (Some id) by (rewrite <- Hid, <- Hid'; reflexivity).
      repeat split.
      rewrite fetches_emit.
      change (fetches (setError None (setLoading true (setIsRunning false ?x))))
        with (fetches x).
      rewrite Hfetch. reflexivity.
    + repeat split; auto. rewrite Hfetch. simpl. lia.
Qed.

End MoreFrames.

Lemma other_frames_are_ignored_witness :
  frames_parse pong_text = Normal pong_frame /\
  ProjectDetail.onmessage frames_parse pong_text
    (watching (sample_job (JStr "running") (JNum 65%float) None))
  = watching (sample_job (JStr "running") (JNum 65%float) None).
Proof.
  split; [reflexivity | ].
  apply (other_frames_are_ignored frames_parse pong_text pong_frame (JStr "pong"));
    reflexivity.
Defined.

Lemma handler_faults_are_logged_as_parse_errors_witness :
  frames_parse "null" = Normal JNull /\
  ProjectDetail.onmessage frames_parse "null"
    (watching (sample_job (JStr "running") (JNum 65%float) None))
  = parse_error_logged (watching (sample_job (JStr "running") (JNum 65%float) None)).
Proof.
  split; [reflexivity | ].
  apply (handler_faults_are_logged_as_parse_errors frames_parse "null" JNull).
  - reflexivity.
  - left. reflexivity.
Defined.


Lemma status_update_drives_running_flag_and_reload_witness :
  let st := watching (sample_job (JStr "running") (JNum 65%float) None) in
  let st' := ProjectDetail.onmessage frames_parse completed_text st in
  frames_parse completed_text = Normal completed_frame /\
  carried completed_frame "status" = Normal (JStr "completed") /\
  ProjectDetail.id_of st = Some "p1" /\
  ProjectDetail.isRunning st' = false /\
  fetches st' = fetches st + 1.
Proof.
  intros st st'.
  assert (Hparse : frames_parse completed_text = Normal completed_frame)
    by reflexivity.
  assert (Hs : carried completed_frame "status" = Normal (JStr "completed"))
    by reflexivity.
  assert (Hid : ProjectDetail.id_of st = Some "p1") by reflexivity.
  do 3 (split; [assumption | ]).
  destruct (status_update_drives_running_flag_and_reload frames_parse
              completed_text completed_frame (JStr "completed") "p1" st
              Hparse eq_refl Hs Hid) as (Hrun & Hfetch & _).
  split; [exact Hrun | exact Hfetch].
Defined.

(** ** Reloading, cancelling and the buttons *)

Section Actions.

Import ProjectDetail ProjectActions.

(** X6: the two outcomes of a reload. When [getProject] fails the held Project
    is kept, [error] becomes "Project not found" and the page is replaced by
    the error alert, so no start, cancel or download button is rendered even
    for a Project that would allow it; the next reload clears the error again.
    When it succeeds the answer replaces the Project, the error set aside at
    the start of the reload stays cleared and the start button follows
    [canRun] of the fresh Project. Either way [loading] ends. *)
Theorem reload_outcomes id fresh st :
  id_of st = Some id ->
  let failed := loadProject_resume HttpFail (loadProject st) in
  let loaded := loadProject_resume (HttpOk fresh) (loadProject st) in
  (project failed = project st /\
   error failed = Some "Project not found" /\
   loading failed = false /\
   isRunning failed = isRunning st /\
   start_button_rendered failed = false /\
   cancel_button_rendered failed = false /\
   download_button_rendered failed = false /\
   error (loadProject failed) = None) /\
  (project loaded = Some fresh /\
   error loaded = None /\
   loading loaded = false /\
   isRunning loaded = eq_str (status fresh) "running" /\
   start_button_rendered loaded = canRun fresh /\
   cancel_button_rendered loaded = canCancel fresh).
Proof.
  intros Hid failed loaded. unfold failed, loaded, loadProject. rewrite Hid.
  split.
  - repeat split. unfold loadProject. simpl.
    change (id_of _) with (id_of st). rewrite Hid. reflexivity.
  - repeat split.
Qed.

(** X7: the two outcomes of a cancel. On success the running flag is cleared,
    the "Project cancelled" toast shown and exactly one reload issued; the
    held Project itself changes only when that reload answers. On failure the
    failure is logged, the "Cancel failed" toast shown, and the Project, the
    flags and the requests stay as they were. *)
Theorem cancel_outcomes id st :
  id_of st = Some id ->
  let done := handleCancelProject_resume (HttpOk tt) st in
  let failed := handleCancelProject_resume HttpFail st in
  (isRunning done = false /\
   project done = project st /\
   fetches done = S (fetches st) /\
   loading done = true /\
   effects done
   = (effects st ++ [cancelled_toast; HttpGet ("/api/projects/" ++ id)])%list) /\
  (isRunning failed = isRunning st /\
   project failed = project st /\
   fetches failed = fetches st /\
   loading failed = loading st /\
   effects failed
   = (effects st ++ [api_error_logged; ConsoleError "Failed to cancel project:";
                     cancel_failed_toast])%list).
Proof.
  intros Hid done failed.
  assert (Hdone : done = emit (HttpGet ("/api/projects/" ++ id))
                           (setError None (setLoading true
                              (emit cancelled_toast (setIsRunning false st))))).
  { unfold done, handleCancelProject_resume. simpl. unfold loadProject.
    change (id_of (emit cancelled_toast (setIsRunning false st))) with (id_of st).
    rewrite Hid. reflexivity. }
  assert (Hfailed : failed = emit cancel_failed_toast
                               (emit (ConsoleError "Failed to cancel project:")
                                  (emit api_error_logged st))) by reflexivity.
  rewrite Hdone, Hfailed. split.
  - repeat split.
    + rewrite fetches_emit.
      change (fetches (setError None (setLoading true ?x))) with (fetches x).
      rewrite fetches_emit.
      change (fetches (setIsRunning false st)) with (fetches st).
      simpl. lia.
    + simpl. rewrite <- app_assoc. reflexivity.
  - repeat split.
    + rewrite !fetches_emit. simpl. lia.
    + simpl. rewrite <- !app_assoc. reflexivity.
Qed.

(** X8: the three gates never offer contradictory actions. Whatever the
    status, cancel is never offered together with start or with download, and
    download and start are offered together exactly for a [completed]
    Project; a [partially_completed] one can be downloaded but not started. *)
Theorem cancel_excludes_start_and_download p :
  canCancel p && (canRun p || canDownload p) = false /\
  canDownload p && canRun p = eq_str (status p) "completed" /\
  (canDownload p && negb (canRun p)) = eq_str (status p) "partially_completed".
Proof.
  unfold canCancel, canRun, canDownload, includes. simpl.
  destruct (eq_str (status p) "running") eqn:Hrunning;
    [apply eq_str_true in Hrunning; rewrite Hrunning; repeat split | ].
  destruct (eq_str (status p) "completed") eqn:Hcompleted;
    [apply eq_str_true in Hcompleted; rewrite Hcompleted; repeat split | ].
  destruct (eq_str (status p) "partially_completed") eqn:Hpartial;
    [apply eq_str_true in Hpartial; rewrite Hpartial; repeat split | ].
  repeat split.
Qed.

End Actions.

Lemma reload_outcomes_witness :
  let st := watching (sample_job (JStr "failed") (JNum 40%float) None) in
  ProjectDetail.id_of st = Some "p1" /\
  ProjectDetail.start_button_rendered st = true /\
  ProjectDetail.start_button_rendered
    (ProjectDetail.loadProject_resume HttpFail (ProjectDetail.loadProject st))
  = false.
Proof.
  intros st.
  assert (Hid : ProjectDetail.id_of st = Some "p1") by reflexivity.
  split; [exact Hid | ]. split; [reflexivity | ].
  destruct (reload_outcomes "p1" (sample_job (JStr "running") (JNum 0%float) None)
              st Hid) as ((_ & _ & _ & _ & Hstart & _) & _).
  exact Hstart.
Defined.

Lemma cancel_outcomes_witness :
  let st := watching (sample_job (JStr "running") (JNum 65%float) None) in
  ProjectDetail.id_of st = Some "p1" /\
  fetches (ProjectActions.handleCancelProject_resume (HttpOk tt) st)
  = S (fetches st).
Proof.
  intros st.
  assert (Hid : ProjectDetail.id_of st = Some "p1") by reflexivity.
  split; [exact Hid | ].
  destruct (cancel_outcomes "p1" st Hid) as ((_ & _ & Hfetch & _) & _).
  exact Hfetch.
Defined.

(** ** Tear-down, and what goes out on the socket *)

Section Lifetime.

Import ProjectDetail.

Variable JSON_parse : string -> Completion JsValue.

Lemma same_sent_refl st : same_sent st st.
Proof. reflexivity. Qed.

Lemma same_sent_trans st1 st2 st3 :
  same_sent st1 st2 -> same_sent st2 st3 -> same_sent st1 st3.
Proof. unfold same_sent. congruence. Qed.

Lemma same_sent_emit e st :
  (forall frame, e <> WsSend frame) -> same_sent st (emit e st).
Proof.
  intros He. unfold same_sent. rewrite sent_emit.
  destruct e; try apply app_nil_r. exfalso. apply (He frame). reflexivity.
Qed.




Lemma loadProject_sent st : same_sent st (loadProject st).
Proof.
  unfold loadProject. destruct (id_of st); [ | reflexivity].
  unfold same_sent. rewrite sent_emit. simpl. apply app_nil_r.
Qed.

Lemma setProject_with_sent updater st : same_sent st (setProject_with updater st).
Proof. unfold setProject_with. destruct (updater (project st)); reflexivity. Qed.

Lemma onmessage_sent event_data st :
  same_sent st (onmessage JSON_parse event_data st).
Proof.
  unfold onmessage.
  apply (try_catch_keeps _ same_sent_trans).
  - unfold onmessage_body.
    apply (bind_keeps _ same_sent_trans); [apply (eval_keeps _ same_sent_refl) | ].
    intro. unfold dispatch, on_status_update, update_running_state, on_error,
      on_completion.
    keeps_steps same_sent_refl same_sent_trans
      ltac:(first [ apply setProject_with_sent | apply loadProject_sent
                  | apply same_sent_emit; intros frame H; discriminate H
                  | reflexivity ]).
  - intros e st0. apply same_sent_emit. intros frame H. discriminate H.
Qed.

(** One event sends at most one frame, a ping, and only a tick does. *)
Lemma step_sent st ev :
  sent (step JSON_parse st ev) = sent st \/
  (ev = PingTick /\ sent (step JSON_parse st ev) = (sent st ++ [ping_frame])%list).
Proof.
  destruct ev; simpl.
  - left. destruct (ws st) as [[ | | | ] | ]; try reflexivity.
    unfold sent. simpl. rewrite flat_map_app. simpl. apply app_nil_r.
  - left. destruct (ws st) as [[ | | | ] | ]; try reflexivity. apply onmessage_sent.
  - left. destruct (ws st); [ | reflexivity].
    apply same_sent_emit. intros frame H. discriminate H.
  - left. destruct (ws st) as [[ | | | ] | ]; try reflexivity;
      unfold sent; simpl; rewrite flat_map_app; simpl; apply app_nil_r.
  - destruct (pingInterval st); [ | left; reflexivity].
    unfold ping_callback. destruct (ws st) as [[ | | | ] | ]; try (left; reflexivity).
    right. split; [reflexivity | apply sent_emit].
  - left. destruct (mounted st); [ | reflexivity].
    unfold loadProject_resume, getProject_settled.
    destruct o; try reflexivity. unfold sent. simpl.
    rewrite !flat_map_app. simpl. rewrite !app_nil_r. reflexivity.
  - left. destruct (mounted st); [ | reflexivity].
    unfold press_start. destruct (start_button_enabled st); [ | reflexivity].
    unfold handleRunProject. destruct (id_of st); [ | reflexivity].
    apply same_sent_emit. intros frame H. discriminate H.
  - left. destruct (mounted st); [ | reflexivity].
    unfold handleRunProject_resume, runProject_settled.
    destruct o; unfold sent; simpl; rewrite !flat_map_app; simpl;
      rewrite ?app_nil_r; reflexivity.
  - left. destruct (mounted st); [ | reflexivity].
    unfold cleanup, ws_close. simpl.
    destruct (ws st) as [[ | | | ] | ]; try reflexivity;
      unfold sent; simpl; rewrite flat_map_app; simpl; apply app_nil_r.
Qed.

Lemma run_sent evs : forall st,
  exists n, n <= count_ticks evs /\
            sent (run JSON_parse st evs) = (sent st ++ repeat ping_frame n)%list.
Proof.
  induction evs as [ | ev evs IH]; intros st.
  - exists 0. split; [apply Nat.le_refl | ]. simpl. rewrite app_nil_r. reflexivity.
  - destruct (IH (step JSON_parse st ev)) as (n & Hn & Hsent).
    change (run JSON_parse st (ev :: evs))
      with (run JSON_parse (step JSON_parse st ev) evs).
    destruct (step_sent st ev) as [Hsame | (-> & Hping)].
    + exists n. split.
      * unfold count_ticks in *. simpl. destruct ev; simpl; lia.
      * rewrite Hsent, Hsame. reflexivity.
    + exists (S n). split.
      * unfold count_ticks in *. simpl. lia.
      * rewrite Hsent, Hping, <- app_assoc. reflexivity.
Qed.

(** X10: from its mount on, the page sends nothing on the socket but
    keep-alive pings, and at most one for each time the interval fires: the
    frames sent after any sequence of events are [n] pings with [n] no more
    than the number of ticks. *)
Theorem only_pings_are_sent id evs :
  exists n, n <= count_ticks evs /\
            sent (run JSON_parse (mount id) evs) = repeat ping_frame n.
Proof.
  destruct (run_sent evs (mount id)) as (n & Hn & Hsent).
  exists n. split; [exact Hn | ].
  rewrite Hsent.
  assert (Hmount : sent (mount id) = []).
  { unfold mount. rewrite loadProject_sent.
    unfold setup_websocket. destruct (id_of _); reflexivity. }
  rewrite Hmount. reflexivity.
Qed.

End Lifetime.



(** ** Status updates in sequence *)

Section Sequence.

Lemma carried_value_normal message k v :
  carried message k = Normal v -> carried_value message k = v.
Proof. unfold carried_value. intros ->. reflexivity. Qed.

Lemma same_identity_refl p : same_identity p p.
Proof. repeat split. Qed.

(** X11: status updates compose member by member. After any sequence of
    updates that the merge accepts, the status, the completion percentage and
    the stage of the held Project are each the last truthy value the frames
    carried for that member, or the value held at the start when no frame
    carried a truthy one; no member depends on another, on the order of
    sizes of the percentages or on how often a frame was repeated, and the
    identity and the artifacts are those held at the start. *)
Theorem updates_compose_member_by_member frames : forall p next,
  apply_updates frames (Some p) = Normal next ->
  exists merged,
    next = Some merged /\
    status merged = latest "status" frames (status p) /\
    completion_percentage merged
    = latest "completion_percentage" frames (completion_percentage p) /\
    current_node merged = latest "current_node" frames (current_node p) /\
    same_identity p merged /\
    artifacts merged = artifacts p.
Proof.
  induction frames as [ | message rest IH]; intros p next Hrun.
  - simpl in Hrun. injection Hrun as <-. exists p.
    repeat split.
  - change (apply_updates (message :: rest) (Some p))
      with (cbind (status_update_updater message (Some p)) (apply_updates rest))
      in Hrun.
    destruct (status_update_updater message (Some p)) as [step | e] eqn:Hstep;
      [ | discriminate Hrun].
    unfold cbind in Hrun.
    destruct (updater_inv _ _ _ Hstep) as (s & c & n & Hs & Hc & Hn & ->).
    destruct (IH _ _ Hrun) as (merged & -> & Hst & Hpct & Hnode & Hid & Harts).
    exists merged. unfold latest in *. simpl in *.
    rewrite (carried_value_normal _ _ _ Hs), (carried_value_normal _ _ _ Hc),
      (carried_value_normal _ _ _ Hn).
    split; [reflexivity | ].
    split; [exact Hst | ]. split; [exact Hpct | ]. split; [exact Hnode | ].
    split; [exact Hid | exact Harts].
Qed.

End Sequence.

Lemma updates_compose_member_by_member_witness :
  let before := sample_job (JStr "running") (JNum 30%float) None in
  let frames := [progress_frame 65%float; progress_frame 10%float; zero_progress_frame] in
  let after := sample_job (JStr "completed") (JNum 10%float) None in
  apply_updates frames (Some before) = Normal (Some after) /\
  latest "completion_percentage" frames (JNum 30%float) = JNum 10%float /\
  exists merged,
    Some after = Some merged /\
    completion_percentage merged
    = latest "completion_percentage" frames (completion_percentage before).
Proof.
  intros before frames after.
  assert (Hrun : apply_updates frames (Some before) = Normal (Some after))
    by reflexivity.
  split; [exact Hrun | ]. split; [reflexivity | ].
  destruct (updates_compose_member_by_member frames before (Some after) Hrun)
    as (merged & Hmerged & _ & Hpct & _).
  exists merged. split; [exact Hmerged | exact Hpct].
Defined.

(** ** The project list *)

Section ProjectList.

Import ProjectProvider ProjectContext DashboardView.

Lemma gets_log e st : gets (log e st) = gets st + (if is_get e then 1 else 0).
Proof.
  unfold gets, log. simpl. rewrite filter_app, length_app. simpl.
  destruct (is_get e); reflexivity.
Qed.

(** X12: [createProject] keeps the creation apart from the list refresh it
    triggers. When the POST fails, the failure is logged, [null] is returned,
    no refresh is requested and the provider's list, [loading] and [error]
    are untouched. When the POST succeeds, exactly one refresh is requested
    and the new id is returned once the refresh has settled, also when the
    refresh itself failed; that failure only shows in the provider's
    [error]. *)
Theorem createProject_outcomes project_id st :
  let posted := createProject st in
  (let '(st1, result) := createProject_posted HttpFail posted in
   result = Returned None /\
   gets st1 = gets st /\
   projects st1 = projects st /\ loading st1 = loading st /\
   error st1 = error st /\ outstanding st1 = outstanding st) /\
  (let '(st1, progress) := createProject_posted (HttpOk project_id) posted in
   progress = Refreshing project_id /\
   gets st1 = S (gets st) /\
   forall o,
     let '(st2, result) := createProject_refreshed project_id o st1 in
     result = Returned (Some project_id) /\
     gets st2 = S (gets st) /\
     loading st2 = false /\
     outstanding st2 = outstanding st /\
     match o with
     | HttpOk data => projects st2 = data /\ error st2 = None
     | HttpFail => projects st2 = projects st /\
                   error st2 = Some "Failed to fetch projects"
     end).
Proof.
  intros posted. unfold posted, createProject. split.
  - simpl. repeat split. rewrite !gets_log. simpl. lia.
  - simpl. split; [reflexivity | ].
    assert (Hgets : gets (fetchProjects (log (HttpPost "/api/projects") st))
                    = S (gets st)).
    { unfold gets, fetchProjects, log. simpl.
      rewrite !filter_app, !length_app. simpl. lia. }
    split; [exact Hgets | ].
    intros [data | ]; simpl; repeat split.
    + exact Hgets.
    + unfold gets in *. simpl in *. rewrite !filter_app, !length_app in *.
      simpl in *. lia.
Qed.

(** X13: what the Dashboard shows around a failed fetch. Once the failure has
    settled, the error box is rendered in place of the table, although the
    list of projects is still held; when the next fetch starts, the error is
    cleared and the retained list is shown again (the spinner, if the list is
    empty). *)
Theorem failed_fetch_hides_the_list_until_the_next_fetch st :
  let failed := fetchProjects_resume HttpFail st in
  render failed = ErrorBox "Failed to fetch projects" /\
  projects failed = projects st /\
  render (fetchProjects failed)
  = (if is_empty (projects st) then LoadingSpinner else ProjectTable (projects st)).
Proof.
  intros failed. unfold failed, render. simpl. repeat split.
  destruct (projects st); reflexivity.
Qed.

(** X14: a fetch that succeeds does not clear an error. When two fetches
    overlap and the earlier one fails after the later one has started, the
    stored error survives the later one's success: the fresh list is held but
    the Dashboard keeps showing the error box until another fetch starts. *)
Theorem late_success_keeps_the_error_box message data st :
  error st = Some message ->
  message <> EmptyString ->
  let st' := fetchProjects_resume (HttpOk data) st in
  projects st' = data /\
  error st' = Some message /\
  render st' = ErrorBox message /\
  render (fetchProjects st')
  = (if is_empty data then LoadingSpinner else ProjectTable data).
Proof.
  intros Herr Hmsg st'. unfold st', render. simpl. rewrite Herr.
  apply String.eqb_neq in Hmsg. rewrite Hmsg.
  repeat split. destruct data; reflexivity.
Qed.

End ProjectList.

Lemma late_success_keeps_the_error_box_witness :
  let fresh := [sample_job (JStr "completed") (JNum 100%float) None] in
  let st := Dashboard.context
              (Dashboard.run idle_dashboard
                 [Dashboard.Tick; Dashboard.Tick; Dashboard.Settled HttpFail]) in
  ProjectProvider.error st = Some "Failed to fetch projects" /\
  DashboardView.render (ProjectProvider.fetchProjects_resume (HttpOk fresh) st)
  = DashboardView.ErrorBox "Failed to fetch projects".
Proof.
  intros fresh st.
  assert (Herr : ProjectProvider.error st = Some "Failed to fetch projects")
    by reflexivity.
  split; [exact Herr | ].
  destruct (late_success_keeps_the_error_box "Failed to fetch projects" fresh st
              Herr) as (_ & _ & Hview & _).
  - intros H. discriminate H.
  - exact Hview.
Defined.

(** ** Creating a project *)

Section Create.

Import ProjectCreate.

Variable trim : string -> string.

Lemma create_calls_act a st :
  create_calls (act a st)
  = (create_calls st ++ match a with
                        | CallCreateProject n r => [(n, r)]
                        | _ => []
                        end)%list.
Proof. unfold create_calls. simpl. rewrite flat_map_app. simpl. destruct a; reflexivity. Qed.

Lemma navigations_act a st :
  navigations (act a st)
  = (navigations st ++ match a with
                       | Navigate path => [path]
                       | _ => []
                       end)%list.
Proof. unfold navigations. simpl. rewrite flat_map_app. simpl. destruct a; reflexivity. Qed.

(** X15: a submit with a blank name or blank requirements stays in the
    browser. When the trimmed name or the trimmed requirements are empty, one
    warning toast is shown, about the name if that is blank and about the
    requirements otherwise; [createProject] is not called, nothing is
    navigated to, and [isLoading] and the typed texts are as before. *)
Theorem blank_submit_is_rejected_locally st :
  is_blank (trim (name st)) = true \/ is_blank (trim (requirements st)) = true ->
  let st' := handleSubmit trim st in
  create_calls st' = create_calls st /\
  navigations st' = navigations st /\
  isLoading st' = isLoading st /\
  name st' = name st /\ requirements st' = requirements st /\
  actions st'
  = (actions st ++
     [if is_blank (trim (name st))
      then ShowToast "Name required" "Please provide a project name" "warning"
      else ShowToast "Requirements required"
                     "Please provide project requirements" "warning"])%list.
Proof.
  intros Hblank st'. unfold st', handleSubmit.
  destruct (is_blank (trim (name st))) eqn:Hname.
  - rewrite create_calls_act, navigations_act, !app_nil_r. repeat split.
  - destruct Hblank as [H | H]; [discriminate H | ]. rewrite H.
    rewrite create_calls_act, navigations_act, !app_nil_r. repeat split.
Qed.

(** X16: a submit that passes both checks calls [createProject] once, with
    the name and the requirements exactly as typed (not trimmed), and shows
    the form as loading until the call returns. When it returns, [isLoading]
    is cleared whatever the result; the page navigates to the new project
    exactly when the returned id is a non-empty string, and shows the
    "Creation failed" toast when it is [null] or empty. *)
Theorem valid_submit_creates_then_navigates st result :
  is_blank (trim (name st)) = false ->
  is_blank (trim (requirements st)) = false ->
  let submitted := handleSubmit trim st in
  let settled := handleSubmit_resume result submitted in
  isLoading submitted = true /\
  create_calls submitted = (create_calls st ++ [(name st, requirements st)])%list /\
  isLoading settled = false /\
  create_calls settled = create_calls submitted /\
  navigations settled
  = (navigations st ++
     match result with
     | Some id => if is_blank id then [] else [("/projects/" ++ id)%string]
     | None => []
     end)%list /\
  (forall id, result = Some id -> is_blank id = false ->
     actions settled
     = (actions submitted ++
        [ShowToast "Project created"
                   "Your project has been created successfully" "success";
         Navigate ("/projects/" ++ id)%string])%list) /\
  (result = None \/ result = Some EmptyString ->
     actions settled
     = (actions submitted ++
        [ShowToast "Creation failed" "Failed to create the project" "error"])%list).
Proof.
  intros Hname Hreq submitted settled.
  unfold settled, submitted, handleSubmit. rewrite Hname, Hreq.
  split; [reflexivity | ].
  split; [rewrite create_calls_act; reflexivity | ].
  split; [destruct result as [id | ]; [destruct (is_blank id) eqn:Hid | ];
          unfold handleSubmit_resume; try rewrite Hid; reflexivity | ].
  split.
  { unfold handleSubmit_resume. destruct result as [id | ];
      [destruct (is_blank id) | ]; unfold create_calls; simpl;
      rewrite !flat_map_app; simpl; rewrite ?app_nil_r; reflexivity. }
  split.
  { unfold handleSubmit_resume. destruct result as [id | ];
      [destruct (is_blank id) | ]; unfold navigations; simpl;
      rewrite !flat_map_app; simpl; rewrite ?app_nil_r; reflexivity. }
  split.
  - intros id -> Hid. unfold handleSubmit_resume. rewrite Hid. simpl.
    rewrite <- !app_assoc. reflexivity.
  - intros [-> | ->]; reflexivity.
Qed.

End Create.

Lemma blank_submit_is_rejected_locally_witness :
  let st := {| ProjectCreate.name := "   ";
               ProjectCreate.requirements := "Build a todo app";
               ProjectCreate.isLoading := false;
               ProjectCreate.actions := [] |} in
  ProjectCreate.is_blank (ProjectCreate.trim_spaces (ProjectCreate.name st)) = true /\
  ProjectCreate.create_calls (ProjectCreate.handleSubmit ProjectCreate.trim_spaces st)
  = [].
Proof.
  intros st.
  assert (Hblank : ProjectCreate.is_blank
                     (ProjectCreate.trim_spaces (ProjectCreate.name st)) = true)
    by reflexivity.
  split; [exact Hblank | ].
  destruct (blank_submit_is_rejected_locally ProjectCreate.trim_spaces st
              (or_introl Hblank)) as (Hcalls & _).
  exact Hcalls.
Defined.

Lemma valid_submit_creates_then_navigates_witness :
  let st := {| ProjectCreate.name := " App ";
               ProjectCreate.requirements := "Build a todo app";
               ProjectCreate.isLoading := false;
               ProjectCreate.actions := [] |} in
  let settled := ProjectCreate.handleSubmit_resume (Some "p1")
                   (ProjectCreate.handleSubmit ProjectCreate.trim_spaces st) in
  ProjectCreate.is_blank (ProjectCreate.trim_spaces (ProjectCreate.name st)) = false /\
  ProjectCreate.is_blank
    (ProjectCreate.trim_spaces (ProjectCreate.requirements st)) = false /\
  ProjectCreate.create_calls settled = [(" App ", "Build a todo app")] /\
  ProjectCreate.navigations settled = ["/projects/p1"].
Proof.
  intros st settled.
  assert (Hname : ProjectCreate.is_blank
                    (ProjectCreate.trim_spaces (ProjectCreate.name st)) = false)
    by reflexivity.
  assert (Hreq : ProjectCreate.is_blank
                   (ProjectCreate.trim_spaces (ProjectCreate.requirements st)) = false)
    by reflexivity.
  do 2 (split; [assumption | ]).
  destruct (valid_submit_creates_then_navigates ProjectCreate.trim_spaces st
              (Some "p1") Hname Hreq) as (_ & Hcall & _ & Hsame & Hnav & _).
  split.
  - unfold settled. rewrite Hsame, Hcall. reflexivity.
  - exact Hnav.
Defined.

(** ** The language of a file *)

Section Language.

Import CodeViewer.

Lemma pop_cons piece pieces : pieces <> [] -> pop (piece :: pieces) = pop pieces.
Proof.
  intros Hne. unfold pop. simpl.
  destruct (rev pieces) as [ | last front] eqn:Hrev.
  - exfalso. apply Hne. apply (f_equal (@rev string)) in Hrev.
    rewrite rev_involutive in Hrev. exact Hrev.
  - reflexivity.
Qed.

Lemma split_dot_no_dot s : has_dot s = false -> split_dot s = [s].
Proof.
  induction s as [ | c rest IH]; simpl; intros H; [reflexivity | ].
  apply orb_false_iff in H as (Hc & Hrest).
  rewrite Hc, (IH Hrest). reflexivity.
Qed.

(** The last piece of a name is what follows its last dot. *)
Lemma split_dot_last base ext :
  has_dot ext = false ->
  exists piece pieces,
    split_dot (base ++ "." ++ ext) = piece :: pieces /\
    pieces <> [] /\ pop pieces = Some ext.
Proof.
  intros Hext. induction base as [ | c rest IH].
  - exists EmptyString, [ext]. simpl. rewrite (split_dot_no_dot _ Hext).
    repeat split. discriminate.
  - destruct IH as (piece & pieces & Hsplit & Hne & Hpop).
    change ((String c rest ++ "." ++ ext)%string)
      with (String c (rest ++ "." ++ ext)%string).
    simpl. destruct (Ascii.eqb c ".").
    + exists EmptyString, (piece :: pieces).
      change (rest ++ String "." ext)%string with (rest ++ "." ++ ext)%string.
      rewrite Hsplit. repeat split; [discriminate | ].
      rewrite (pop_cons _ _ Hne). exact Hpop.
    + change (rest ++ String "." ext)%string with (rest ++ "." ++ ext)%string.
      rewrite Hsplit. exists (String c piece), pieces. repeat split; assumption.
Qed.

Lemma extension_of_dotted base ext :
  has_dot ext = false -> extension (base ++ "." ++ ext) = toLowerCase ext.
Proof.
  intros Hext. destruct (split_dot_last base ext Hext)
    as (piece & pieces & Hsplit & Hne & Hpop).
  unfold extension. rewrite Hsplit, (pop_cons _ _ Hne), Hpop. reflexivity.
Qed.

Lemma lower_char_idem c : lower_char (lower_char c) = lower_char c.
Proof. destruct c as [[] [] [] [] [] [] [] []]; reflexivity. Qed.

Lemma lower_char_dot c : Ascii.eqb (lower_char c) "." = Ascii.eqb c ".".
Proof. destruct c as [[] [] [] [] [] [] [] []]; reflexivity. Qed.

Lemma toLowerCase_idem s : toLowerCase (toLowerCase s) = toLowerCase s.
Proof.
  induction s as [ | c rest IH]; simpl; [reflexivity | ].
  rewrite lower_char_idem, IH. reflexivity.
Qed.

Lemma has_dot_lower s : has_dot (toLowerCase s) = has_dot s.
Proof.
  induction s as [ | c rest IH]; simpl; [reflexivity | ].
  rewrite lower_char_dot, IH. reflexivity.
Qed.

(** X17: [getLanguage] looks only at what follows the last dot of the file
    name, without regard to case: for an extension without a dot, the
    language of [base.ext] is the table entry of the lower-cased extension,
    whatever the base (directories and earlier dots included), and it is the
    same for the extension in any capitalisation. A name without any dot is
    taken as its own extension. *)
Theorem getLanguage_reads_the_last_extension base other ext :
  has_dot ext = false ->
  getLanguage (base ++ "." ++ ext) = language_of (toLowerCase ext) /\
  getLanguage (base ++ "." ++ ext) = getLanguage (other ++ "." ++ toLowerCase ext) /\
  getLanguage ext = language_of (toLowerCase ext).
Proof.
  intros Hext. unfold getLanguage.
  rewrite (extension_of_dotted base ext Hext).
  rewrite (extension_of_dotted other (toLowerCase ext));
    [ | rewrite has_dot_lower; exact Hext].
  rewrite toLowerCase_idem.
  repeat split.
  unfold extension. rewrite (split_dot_no_dot _ Hext). reflexivity.
Qed.

End Language.

Lemma getLanguage_reads_the_last_extension_witness :
  CodeViewer.has_dot "TSX" = false /\
  CodeViewer.getLanguage "src/components/App.test.TSX" = CodeViewer.Named "tsx".
Proof.
  split; [reflexivity | ].
  destruct (getLanguage_reads_the_last_extension "src/components/App.test" "x" "TSX"
              eq_refl) as (Hlang & _).
  exact Hlang.
Defined.

(** Names without a dot: a build file falls back to plain text, a file called
    like an extension is highlighted as that language. *)
Example getLanguage_without_dot :
  CodeViewer.getLanguage "Makefile" = CodeViewer.Named "text" /\
  CodeViewer.getLanguage "go" = CodeViewer.Named "go" /\
  CodeViewer.getLanguage "notes." = CodeViewer.Named "text".
Proof. repeat split. Qed.

(** ** What changes the held data *)

Section Changes.

Variable JSON_parse : string -> Completion JsValue.

(** X18: the held Project changes only through the push channel or a reload
    that succeeds. Every other event (the socket opening, failing or closing,
    a keep-alive tick, a failed reload, pressing start, the start request
    settling either way, unmounting) leaves it exactly as it was. *)
Theorem project_changes_only_by_frame_or_reload st ev :
  (forall event_data, ev <> ProjectDetail.WsMessage event_data) ->
  (forall fresh, ev <> ProjectDetail.GetProjectSettled (HttpOk fresh)) ->
  ProjectDetail.project (ProjectDetail.step JSON_parse st ev)
  = ProjectDetail.project st.
Proof.
  intros Hframe Hreload. destruct ev; simpl.
  - destruct (ProjectDetail.ws st) as [[ | | | ] | ]; reflexivity.
  - exfalso. apply (Hframe event_data). reflexivity.
  - destruct (ProjectDetail.ws st); reflexivity.
  - destruct (ProjectDetail.ws st) as [[ | | | ] | ]; reflexivity.
  - destruct (ProjectDetail.pingInterval st); [ | reflexivity].
    unfold ProjectDetail.ping_callback.
    destruct (ProjectDetail.ws st) as [[ | | | ] | ]; reflexivity.
  - destruct (ProjectDetail.mounted st); [ | reflexivity].
    destruct o as [fresh | ]; [ | reflexivity].
    exfalso. apply (Hreload fresh). reflexivity.
  - destruct (ProjectDetail.mounted st); [ | reflexivity].
    apply press_start_project.
  - destruct (ProjectDetail.mounted st); [ | reflexivity].
    apply handleRunProject_resume_project.
  - destruct (ProjectDetail.mounted st); [ | reflexivity].
    unfold ProjectDetail.cleanup, ProjectDetail.ws_close. simpl.
    destruct (ProjectDetail.ws st) as [[ | | | ] | ]; reflexivity.
Qed.

(** X19: the list of projects the provider holds is always the answer of the
    list request that settled last with success. Ticks, failed requests and
    unmounting never change it, and answers are taken in the order in which
    they arrive, whatever the order in which they were requested. *)
Theorem list_is_the_last_successful_answer evs : forall st,
  ProjectProvider.projects (Dashboard.context (Dashboard.run st evs))
  = last_answer evs (ProjectProvider.projects (Dashboard.context st)).
Proof.
  induction evs as [ | ev evs IH]; intros st; [reflexivity | ].
  change (Dashboard.run st (ev :: evs)) with (Dashboard.run (Dashboard.step st ev) evs).
  rewrite IH. unfold last_answer. simpl. f_equal.
  destruct ev as [ | [data | ] | ]; simpl; try reflexivity.
  destruct (Dashboard.interval st); reflexivity.
Qed.

End Changes.

Lemma project_changes_only_by_frame_or_reload_witness :
  let st := watching (sample_job (JStr "failed") (JNum 40%float) None) in
  ProjectDetail.project
    (ProjectDetail.step sample_parse st ProjectDetail.PressStart)
  = ProjectDetail.project st.
Proof.
  intros st.
  apply (project_changes_only_by_frame_or_reload sample_parse st
           ProjectDetail.PressStart).
  - intros event_data H. discriminate H.
  - intros fresh H. discriminate H.
Defined.
